(** * Upload handlers of the file-storage course server

    Shallow embedding of [src/api/thumbnails.ts] (thumbnail handlers) and of
    the video upload handler with its helpers ([handlerUploadVideo],
    [dbVideoToSignedVideo], [getVideoAspectRatio],
    [processVideoForFastStart]).

    The handlers are [async] functions over a database, a module-level
    [Map], the file system and an S3 bucket.  They are embedded in a
    state-and-exception monad [M] over [State]; what the outside world
    decides (token validation, random bytes, child processes, the bucket)
    is collected in [Env]. *)

From Stdlib Require Import ZArith String Ascii List.
From Stdlib Require Import Floats.PrimFloat Floats.SpecFloat Floats.FloatOps.
From Stdlib Require Import Uint63.
From Stdlib Require Import DecimalString.
From stdpp Require Import base option gmap strings list.

Local Open Scope string_scope.
Local Open Scope Z_scope.

(** ** JavaScript primitives *)

Module JS.

(** Truthiness of a string: every string but the empty one. *)
Definition truthy (s : string) : bool := negb (String.eqb s "").

(** ToInt32: wrap-around to the signed 32-bit range. *)
Definition ToInt32 (z : Z) : Z := (z + 2 ^ 31) mod 2 ^ 32 - 2 ^ 31.

(** [a << b] on numbers holding integers. *)
Definition shl (a b : Z) : Z := ToInt32 (Z.shiftl (ToInt32 a) (Z.land b 31)).

(** A Number holding the integer [z] (exact for [|z| < 2^53]). *)
Definition num (z : Z) : float :=
  if z <? 0 then PrimFloat.opp (PrimFloat.of_uint63 (Uint63.of_Z (- z)))
  else PrimFloat.of_uint63 (Uint63.of_Z z).

(** ToNumber on a property that is a JSON number or absent
    ([undefined] becomes NaN). *)
Definition ToNumber (v : option float) : float :=
  match v with
  | Some x => x
  | None => PrimFloat.nan
  end.

(** [Math.floor]: NaN, the infinities and the zeros are returned as they
    are; a finite double [±m·2^e] with [e >= 0] is an integer already;
    otherwise the floor of the exact quotient is taken in [Z]. *)
Definition Math_floor (x : float) : float :=
  match Prim2SF x with
  | S754_finite s m e =>
      if 0 <=? e then x
      else num ((if s then Z.neg m else Z.pos m) / 2 ^ (- e))
  | _ => x
  end.

(** [a === b] on Numbers: IEEE equality (NaN differs from itself). *)
Definition strict_eq (a b : float) : bool := PrimFloat.eqb a b.

(** Template-literal rendering of a Number holding an integer. *)
Definition num_to_string (z : Z) : string := NilZero.string_of_int (Z.to_int z).

(** [s.split(sep)] for a one-character separator. *)
Fixpoint split_go (sep : ascii) (s : string) (cur : string) : list string :=
  match s with
  | EmptyString => [cur]
  | String c rest =>
      if Ascii.eqb c sep then cur :: split_go sep rest ""
      else split_go sep rest (cur +:+ String c "")
  end.

Definition split (s : string) (sep : ascii) : list string := split_go sep s "".

(** ["." + parts[1]]: string concatenation prints a missing element as
    ["undefined"]. *)
Definition concat_elem (prefix : string) (elem : option string) : string :=
  prefix +:+ default "undefined" elem.

(** POSIX [path.normalize]: empty and ["."] segments are dropped, [".."]
    removes the segment before it (and is kept in front of a relative
    path), a trailing separator is kept. *)
Fixpoint normalize_segments (allowAboveRoot : bool) (segs res : list string) : list string :=
  match segs with
  | [] => rev res
  | seg :: rest =>
      if String.eqb seg "" || String.eqb seg "." then normalize_segments allowAboveRoot rest res
      else if String.eqb seg ".." then
        match res with
        | last :: res' =>
            if String.eqb last ".."
            then normalize_segments allowAboveRoot rest
                   (if allowAboveRoot then ".." :: res else res)
            else normalize_segments allowAboveRoot rest res'
        | [] => normalize_segments allowAboveRoot rest (if allowAboveRoot then [".."] else [])
        end
      else normalize_segments allowAboveRoot rest (seg :: res)
  end.

Definition ends_with_slash (s : string) : bool :=
  match last (split s "/") with
  | Some seg => String.eqb seg "" && negb (String.eqb s "")
  | None => false
  end.

Definition path_normalize (path : string) : string :=
  if String.eqb path "" then "." else
  let isAbsolute := String.prefix "/" path in
  let trailingSeparator := ends_with_slash path in
  let p := String.concat "/" (normalize_segments (negb isAbsolute) (split path "/") []) in
  if String.eqb p ""
  then (if isAbsolute then "/" else if trailingSeparator then "./" else ".")
  else
    let p := if trailingSeparator then p +:+ "/" else p in
    if isAbsolute then "/" +:+ p else p.

(** POSIX [path.join(a, b)]: the non-empty arguments joined by a
    separator, then normalised. *)
Definition path_join (a b : string) : string :=
  if String.eqb a "" then (if String.eqb b "" then "." else path_normalize b)
  else if String.eqb b "" then path_normalize a
  else path_normalize (a +:+ "/" +:+ b).

End JS.

(** ** Data model *)

Abbreviation bytes := (list Byte.byte).

(** [type Thumbnail] *)
Record Thumbnail := mkThumbnail {
  data : bytes;
  mediaType : string;
}.

(** Modelled from the spec: the [Video] type of [../db/videos] is not part
    of the sources.  The Asset Record of the spec has an identifier, an
    owning principal, a video location and a thumbnail location; the two
    locations are optional ([video.videoURL!] in the code). *)
Record Video := mkVideo {
  id : string;
  userID : string;
  videoURL : option string;
  thumbnailURL : option string;
}.

(** A [File] of a multipart form. *)
Record File := mkFile {
  size : Z;
  type : string;
  content : bytes;
}.

(** What [FormData.get] can return besides [null]. *)
Inductive FormValue :=
  | FormFile (f : File)
  | FormString (s : string).

(** The parts of a [BunRequest] the handlers read: the route parameter,
    the bearer token of the Authorization header when there is one, and
    what [req.formData()] makes of the body: whether the body decodes as
    form data at all and, when it does, the multipart fields in order
    ([form] is not looked at otherwise). *)
Record BunRequest := mkRequest {
  params_videoId : option string;
  authorization : option string;
  body_decodes : bool;
  form : list (string * FormValue);
}.

(** The fields of [ApiConfig] the handlers read; [cfg.db] and
    [cfg.s3Client] are the [db] and [s3] components of [State]. *)
Record ApiConfig := mkConfig {
  jwtSecret : string;
  assetsRoot : string;
  port : string;
  s3Bucket : string;
}.

(** Exceptions: the classes of [./errors], the one [../auth] raises, the
    plain [Error] the helpers throw, the two built-in errors of
    [JSON.parse] and of destructuring [undefined], and a failed bucket
    write. *)
Inductive Exn :=
  | BadRequestError (msg : string)
  | NotFoundError (msg : string)
  | UserForbiddenError (msg : string)
  | UserNotAuthenticatedError (msg : string)
  | Error (msg : string)
  | SyntaxError
  | TypeError
  | StoreError (msg : string).

Inductive Response :=
  | JSONResponse (status : Z) (payload : Video)
  | BlobResponse (body : bytes) (headers : list (string * string)).

(** ffprobe's JSON document as the handler reads it: [streams] may be
    absent, and so may [width] and [height] of a stream; present
    dimensions are JSON numbers, as ffprobe's JSON writer prints them. *)
Record Stream := mkStream {
  width : option float;
  height : option float;
}.

Record ProbeDoc := mkProbeDoc {
  streams : option (list Stream);
}.

(** A finished child process: exit code, standard output (as the document
    [JSON.parse] reads from it, [None] when it is not JSON text), standard
    error, and the files it wrote. *)
Record ProcResult := mkProc {
  exited : Z;
  stdout : option ProbeDoc;
  stderr : string;
  written : list (string * bytes);
}.

Record S3Object := mkS3Object {
  s3_body : bytes;
  s3_type : string;
}.

(** ** The world of a request *)

(** Observable operations, newest first in [trace]. *)
Inductive Event :=
  | EvConsoleLog (args : list string)
  | EvGetVideo (videoId : string)
  | EvUpdateVideo (video : Video)
  | EvRegistryGet (videoId : string)
  | EvFileWrite (path : string)
  | EvFileExists (path : string)
  | EvFileRm (path : string)
  | EvSpawn (cmd : list string)
  | EvS3Write (bucket key : string)
  | EvPresign (key : option string) (expiresIn : Z).

(** [db] is the videos table behind [cfg.db]; [videoThumbnails] is the
    module-level [Map] of [thumbnails.ts]; [fs] is the file system; [s3]
    holds the bucket objects by bucket and key; [heap] holds the [Video]
    objects of the running request, addressed by position, so that two
    names for one object see each other's assignments. *)
Record State := mkState {
  db : gmap string Video;
  videoThumbnails : gmap string Thumbnail;
  fs : gmap string bytes;
  s3 : gmap (string * string) S3Object;
  heap : list Video;
  trace : list Event;
}.

(** What the outside world decides during a request. *)
Record Env := mkEnv {
  (** [validateJWT(token, secret)]: the user a valid token names. *)
  jwt_subject : string -> string -> option string;
  (** [randomBytes(n).toString("base64url")] *)
  randomBytes_base64url : Z -> string;
  (** A child process, given its command line and the files it can see. *)
  run_process : list string -> gmap string bytes -> ProcResult;
  (** The error message of a bucket write that fails. *)
  s3_write_failure : string -> string -> option string;
  (** [s3Client.presign(key, { expiresIn })] for a key that is there;
      without one the call throws, see [generatePresignedURL]. *)
  s3_presign : option string -> Z -> string;
}.

(** ** The monad: state and exceptions *)

Inductive Outcome (A : Type) :=
  | Returned (a : A)
  | Thrown (e : Exn).
Arguments Returned {A} a.
Arguments Thrown {A} e.

Definition M (A : Type) : Type := State -> Outcome A * State.

Definition ret {A} (a : A) : M A := fun st => (Returned a, st).

Definition throw {A} (e : Exn) : M A := fun st => (Thrown e, st).

Definition bind {A B} (m : M A) (k : A -> M B) : M B :=
  fun st =>
    match m st with
    | (Returned a, st') => k a st'
    | (Thrown e, st') => (Thrown e, st')
    end.

Declare Scope js_scope.
Delimit Scope js_scope with js.
Notation "'let*' x ':=' m 'in' k" := (bind m (fun x => k))
  (at level 10, x pattern, m at level 100, k at level 200) : js_scope.
Notation "m ';;' k" := (bind m (fun _ => k))
  (at level 100, k at level 200, right associativity) : js_scope.
Local Open Scope js_scope.

Definition emit (e : Event) : M unit :=
  fun st => (Returned tt,
             mkState (db st) (videoThumbnails st) (fs st) (s3 st) (heap st) (e :: trace st)).

Definition set_db (f : gmap string Video -> gmap string Video) : M unit :=
  fun st => (Returned tt,
             mkState (f (db st)) (videoThumbnails st) (fs st) (s3 st) (heap st) (trace st)).

Definition set_fs (f : gmap string bytes -> gmap string bytes) : M unit :=
  fun st => (Returned tt,
             mkState (db st) (videoThumbnails st) (f (fs st)) (s3 st) (heap st) (trace st)).

Definition set_s3 (f : gmap (string * string) S3Object -> gmap (string * string) S3Object) : M unit :=
  fun st => (Returned tt,
             mkState (db st) (videoThumbnails st) (fs st) (f (s3 st)) (heap st) (trace st)).

Definition set_heap (f : list Video -> list Video) : M unit :=
  fun st => (Returned tt,
             mkState (db st) (videoThumbnails st) (fs st) (s3 st) (f (heap st)) (trace st)).

Definition get_state : M State := fun st => (Returned st, st).

(** ** Objects of the request *)

(** A reference to a [Video] object. *)
Definition VideoRef := nat.

Definition new_video (v : Video) : M VideoRef :=
  let* st := get_state in
  set_heap (fun h => app h [v]);;
  ret (length (heap st)).

(** Reading through a reference; a dangling one cannot arise, and reads as
    a [TypeError]. *)
Definition read_video (r : VideoRef) : M Video :=
  let* st := get_state in
  match heap st !! r with
  | Some v => ret v
  | None => throw TypeError
  end.

(** [video.videoURL = url] *)
Definition assign_videoURL (r : VideoRef) (url : string) : M unit :=
  let* v := read_video r in
  set_heap (fun h => <[r := mkVideo (id v) (userID v) (Some url) (thumbnailURL v)]> h).

(** [video.thumbnailURL = url] *)
Definition assign_thumbnailURL (r : VideoRef) (url : string) : M unit :=
  let* v := read_video r in
  set_heap (fun h => <[r := mkVideo (id v) (userID v) (videoURL v) (Some url)]> h).

(** ** Collaborators and runtime operations *)

Section Handlers.

Variable env : Env.

(** Modelled from the spec: [getBearerToken] of [../auth] is not part of
    the sources; it fails with an authentication error when the token is
    missing. *)
Definition getBearerToken (header : option string) : M string :=
  match header with
  | Some token => ret token
  | None => throw (UserNotAuthenticatedError "Malformed authorization header")
  end.

(** Modelled from the spec: [validateJWT] of [../auth] is not part of the
    sources; it returns the principal of a valid token and fails with an
    authentication error otherwise. *)
Definition validateJWT (token secret : string) : M string :=
  match jwt_subject env token secret with
  | Some user => ret user
  | None => throw (UserNotAuthenticatedError "Invalid token")
  end.

(** Modelled from the spec: [getVideo] of [../db/videos] is not part of
    the sources; [getRecord(id)] returns the record or not-found.  Each
    call builds a new object from the stored row. *)
Definition getVideo (videoId : string) : M (option VideoRef) :=
  emit (EvGetVideo videoId);;
  let* st := get_state in
  match db st !! videoId with
  | Some row => let* r := new_video row in ret (Some r)
  | None => ret None
  end.

(** Modelled from the spec: [updateVideo] of [../db/videos] is not part
    of the sources; [updateRecord(record)] stores the record, as it is
    at the call, under its identifier. *)
Definition updateVideo (video : VideoRef) : M unit :=
  let* v := read_video video in
  emit (EvUpdateVideo v);;
  set_db (fun rows => <[id v := v]> rows).

(** Modelled from the spec: [respondWithJSON] of [./json] is not part of
    the sources; it wraps the value, as it is at the call, and the status
    code into the response. *)
Definition respondWithJSON (status : Z) (video : VideoRef) : M Response :=
  let* v := read_video video in
  ret (JSONResponse status v).

Definition console_log (args : list string) : M unit := emit (EvConsoleLog args).

(** [await req.formData()]: the fields of the body, or a [TypeError] when
    the body is absent or does not decode as form data. *)
Definition formData (req : BunRequest) : M (list (string * FormValue)) :=
  if body_decodes req then ret (form req) else throw TypeError.

(** [data.get(name)]: the first field of that name, or [null]. *)
Fixpoint formData_get (fields : list (string * FormValue)) (name : string) : option FormValue :=
  match fields with
  | [] => None
  | (n, v) :: rest => if String.eqb n name then Some v else formData_get rest name
  end.

(** [videoThumbnails.get(videoId)] *)
Definition videoThumbnails_get (videoId : string) : M (option Thumbnail) :=
  emit (EvRegistryGet videoId);;
  let* st := get_state in
  ret (videoThumbnails st !! videoId).

(** [Bun.write(path, bytes)]; the write itself is taken to succeed. *)
Definition Bun_write (path : string) (b : bytes) : M unit :=
  emit (EvFileWrite path);;
  set_fs (fun files => <[path := b]> files).

(** [Bun.file(path).exists()] *)
Definition Bun_file_exists (path : string) : M bool :=
  emit (EvFileExists path);;
  let* st := get_state in
  ret (match fs st !! path with Some _ => true | None => false end).

(** [rm(path, { force: true })]: a missing file is not an error. *)
Definition rm_force (path : string) : M unit :=
  emit (EvFileRm path);;
  set_fs (fun files => delete path files).

(** [Bun.spawn({ cmd, ... })] awaited to the end of the process. *)
Definition Bun_spawn (cmd : list string) : M ProcResult :=
  emit (EvSpawn cmd);;
  let* st := get_state in
  let proc := run_process env cmd (fs st) in
  set_fs (fun files => foldl (fun acc w => <[w.1 := w.2]> acc) files (written proc));;
  ret proc.

(** [cfg.s3Client.file(key, { bucket }).write(Bun.file(path), { type })]:
    the file is read when the write runs. *)
Definition s3_file_write (bucket key path contentType : string) : M unit :=
  emit (EvS3Write bucket key);;
  let* st := get_state in
  match fs st !! path with
  | None => throw (StoreError "ENOENT")
  | Some body =>
      match s3_write_failure env bucket key with
      | Some msg => throw (StoreError msg)
      | None => set_s3 (fun objs => <[(bucket, key) := mkS3Object body contentType]> objs)
      end
  end.

(** [JSON.parse(stdoutText)] *)
Definition JSON_parse (text : option ProbeDoc) : M ProbeDoc :=
  match text with
  | Some doc => ret doc
  | None => throw SyntaxError
  end.

(** [const { width, height } = data.streams[0]]: indexing [undefined]
    and destructuring [undefined] both raise a [TypeError]. *)
Definition first_stream (doc : ProbeDoc) : M Stream :=
  match streams doc with
  | None => throw TypeError
  | Some l =>
      match l !! 0%nat with
      | None => throw TypeError
      | Some s => ret s
      end
  end.

(** ** Thumbnail handlers ([thumbnails.ts]) *)

Definition handlerGetThumbnail (cfg : ApiConfig) (req : BunRequest) : M Response :=
  match params_videoId req with
  | None => throw (BadRequestError "Invalid video ID")
  | Some videoId =>
  if negb (JS.truthy videoId) then throw (BadRequestError "Invalid video ID") else
  let* video := getVideo videoId in
  match video with
  | None => throw (NotFoundError "Couldn't find video")
  | Some _ =>
  let* thumbnail := videoThumbnails_get videoId in
  match thumbnail with
  | None => throw (NotFoundError "Thumbnail not found")
  | Some thumbnail =>
  ret (BlobResponse (data thumbnail)
         [("Content-Type", mediaType thumbnail); ("Cache-Control", "no-store")])
  end end end.

Definition handlerUploadThumbnail (cfg : ApiConfig) (req : BunRequest) : M Response :=
  match params_videoId req with
  | None => throw (BadRequestError "Invalid video ID")
  | Some videoId =>
  if negb (JS.truthy videoId) then throw (BadRequestError "Invalid video ID") else
  let* token := getBearerToken (authorization req) in
  let* userID_ := validateJWT token (jwtSecret cfg) in
  console_log ["uploading thumbnail for video"; videoId; "by user"; userID_];;
  let* data := formData req in
  let thumbnail := formData_get data "thumbnail" in
  let MAX_UPLOAD_SIZE := JS.shl 10 20 in
  match thumbnail with
  | None | Some (FormString _) => throw (BadRequestError "Thumbnail file missing")
  | Some (FormFile thumbnail) =>
  if size thumbnail >? MAX_UPLOAD_SIZE
  then throw (BadRequestError "Thumbnail too large, max size: 10MB") else
  let mediaType := type thumbnail in
  if negb (JS.truthy mediaType)
  then throw (BadRequestError "Missing Content-Type for thumbnail") else
  if negb (String.eqb mediaType "image/jpeg") && negb (String.eqb mediaType "image/png")
  then throw (BadRequestError "Invalid Content-Type for thumbnail") else
  let imageBytes := content thumbnail in
  let randomName := randomBytes_base64url env 32 in
  let filetype := JS.concat_elem "." (JS.split mediaType "/" !! 1%nat) in
  let urlPath := "/assets/" +:+ randomName +:+ filetype in
  let fullPath := JS.path_join (assetsRoot cfg) (randomName +:+ filetype) in
  Bun_write fullPath imageBytes;;
  let* video := getVideo videoId in
  match video with
  | None => throw (NotFoundError "Couldn't find video")
  | Some video =>
  let* v := read_video video in
  if negb (String.eqb (userID v) userID_)
  then throw (UserForbiddenError "Not authorized to update this video") else
  assign_thumbnailURL video ("http://localhost:" +:+ port cfg +:+ urlPath);;
  updateVideo video;;
  respondWithJSON 200 video
  end end end.

(** ** Video upload and its helpers *)

(** [video.videoURL!] asserts nothing at run time: a record without a
    video location passes [undefined], on which [presign] throws a
    [TypeError]. *)
Definition generatePresignedURL (cfg : ApiConfig) (key : option string) (expireTime : Z)
  : M string :=
  match key with
  | None => throw TypeError
  | Some _ =>
      emit (EvPresign key expireTime);;
      ret (s3_presign env key expireTime)
  end.

(** The object passed in is assigned to and returned. *)
Definition dbVideoToSignedVideo (cfg : ApiConfig) (video : VideoRef) : M VideoRef :=
  let* v := read_video video in
  let* url := generatePresignedURL cfg (videoURL v) 360 in
  assign_videoURL video url;;
  ret video.

Definition getVideoAspectRatio (filePath : string) : M string :=
  let* proc := Bun_spawn ["ffprobe"; "-v"; "error"; "-select_streams"; "v:0";
                          "-show_entries"; "stream=width,height"; "-of"; "json"; filePath] in
  let stdoutText := stdout proc in
  let stderrText := stderr proc in
  if negb (exited proc =? 0) then throw (Error stderrText) else
  let* data := JSON_parse stdoutText in
  let* s := first_stream data in
  let width := JS.ToNumber (width s) in
  let height := JS.ToNumber (height s) in
  let landscape := JS.Math_floor (PrimFloat.mul (PrimFloat.div (JS.num 16) (JS.num 9)) (JS.num 100)) in
  let portrait := JS.Math_floor (PrimFloat.mul (PrimFloat.div (JS.num 9) (JS.num 16)) (JS.num 100)) in
  let aspect := JS.Math_floor (PrimFloat.mul (PrimFloat.div width height) (JS.num 100)) in
  let ratio :=
    if JS.strict_eq aspect landscape then "landscape"
    else if JS.strict_eq aspect portrait then "portrait"
    else "other" in
  ret ratio.

Definition processVideoForFastStart (inputFilePath : string) : M string :=
  let outputFilePath := inputFilePath +:+ ".processed" in
  let* proc := Bun_spawn ["ffmpeg"; "-i"; inputFilePath; "-movflags"; "faststart";
                          "-map_metadata"; "0"; "-codec"; "copy"; "-f"; "mp4"; outputFilePath] in
  let errorText := stderr proc in
  let exitCode := exited proc in
  if negb (exitCode =? 0)
  then throw (Error ("Command failed with code " +:+ JS.num_to_string exitCode
                       +:+ ": " +:+ errorText))
  else ret outputFilePath.

Definition handlerUploadVideo (cfg : ApiConfig) (req : BunRequest) : M Response :=
  match params_videoId req with
  | None => throw (BadRequestError "Invalid video ID")
  | Some videoId =>
  if negb (JS.truthy videoId) then throw (BadRequestError "Invalid video ID") else
  let* token := getBearerToken (authorization req) in
  let* userID_ := validateJWT token (jwtSecret cfg) in
  console_log ["uploading video"; videoId; "by user"; userID_];;
  let* data := formData req in
  let video := formData_get data "video" in
  let MAX_UPLOAD_SIZE := JS.shl 1 30 in
  match video with
  | None | Some (FormString _) => throw (BadRequestError "Video file missing")
  | Some (FormFile video) =>
  if size video >? MAX_UPLOAD_SIZE
  then throw (BadRequestError "Video too large, max size: 1GB") else
  let mediaType := type video in
  let videoType := "video/mp4" in
  if negb (JS.truthy mediaType)
  then throw (BadRequestError "Missing Content-Type for video") else
  if negb (String.eqb mediaType videoType)
  then throw (BadRequestError "Invalid Content-Type for video, only MP4 is allowed") else
  let* videoTemp := getVideo videoId in
  match videoTemp with
  | None => throw (NotFoundError "Couldn't find video")
  | Some videoTemp =>
  let* v := read_video videoTemp in
  if negb (String.eqb (userID v) userID_)
  then throw (UserForbiddenError "Not authorized to update this video") else
  let tempFilePath := JS.path_join "/tmp" (videoId +:+ ".mp4") in
  let videoBytes := content video in
  Bun_write tempFilePath videoBytes;;
  let* aspectRatio := getVideoAspectRatio tempFilePath in
  let key := aspectRatio +:+ "/" +:+ videoId +:+ ".mp4" in
  let url := key in
  assign_videoURL videoTemp url;;
  let* processedVid := processVideoForFastStart tempFilePath in
  let* present := Bun_file_exists processedVid in
  if negb present then throw (Error "Processed file was not created") else
  s3_file_write (s3Bucket cfg) key processedVid videoType;;
  let* videoData := dbVideoToSignedVideo cfg videoTemp in
  updateVideo videoData;;
  rm_force tempFilePath;;
  respondWithJSON 200 videoData
  end end end.

End Handlers.

(** * Properties *)

(** ** Vocabulary of the statements *)

(** The four stores a handler can write to. *)
Definition stores_unchanged (st st' : State) : Prop :=
  db st' = db st /\ videoThumbnails st' = videoThumbnails st /\
  fs st' = fs st /\ s3 st' = s3 st.

(** The events a run added to the trace. *)
Definition new_events (st st' : State) (l : list Event) : Prop :=
  trace st' = app l (trace st).

Definition is_console_log (e : Event) : bool :=
  match e with EvConsoleLog _ => true | _ => false end.

Definition is_registry_get (e : Event) : bool :=
  match e with EvRegistryGet _ => true | _ => false end.

Definition is_s3_write (e : Event) : bool :=
  match e with EvS3Write _ _ => true | _ => false end.

Definition is_ffprobe (e : Event) : bool :=
  match e with EvSpawn ("ffprobe" :: _) => true | _ => false end.

(** The spec's names for the error classes. *)
Definition ValidationError (e : Exn) : Prop := exists msg, e = BadRequestError msg.
Definition AuthorizationError (e : Exn) : Prop := exists msg, e = UserForbiddenError msg.
Definition AuthenticationError (e : Exn) : Prop := exists msg, e = UserNotAuthenticatedError msg.

(** The request carries a token that [validateJWT] accepts. *)
Definition authenticated (env : Env) (cfg : ApiConfig) (req : BunRequest) : Prop :=
  exists token user,
    authorization req = Some token /\ jwt_subject env token (jwtSecret cfg) = Some user.

(** A validation failure with nothing done: an exception, the four stores
    as they were, and nothing but console output in between. *)
Definition rejected_before_io (st : State) (r : Outcome Response * State) : Prop :=
  exists e, r.1 = Thrown e /\
    (ValidationError e \/ AuthenticationError e) /\
    stores_unchanged st r.2 /\
    exists l, new_events st r.2 l /\ forallb is_console_log l = true.

Definition GiB : Z := 1073741824.
Definition MiB : Z := 1048576.

(** The payload under [field] is missing, larger than [ceiling] bytes, or
    of a media type outside [accepted]; the fields are those of [form],
    none for a request without a body. *)
Definition payload_invalid (field : string) (ceiling : Z) (accepted : list string)
    (req : BunRequest) : bool :=
  match formData_get (form req) field with
  | Some (FormFile f) =>
      (ceiling <? size f) || negb (existsb (String.eqb (type f)) accepted)
  | _ => true
  end.

(** The scratch file of a video upload and the remuxer's output. *)
Definition scratch_path (videoId : string) : string := JS.path_join "/tmp" (videoId +:+ ".mp4").
Definition processed_path (videoId : string) : string := scratch_path videoId +:+ ".processed".

(** The command lines of the two child processes. *)
Definition ffprobe_cmd (filePath : string) : list string :=
  ["ffprobe"; "-v"; "error"; "-select_streams"; "v:0";
   "-show_entries"; "stream=width,height"; "-of"; "json"; filePath].

Definition ffmpeg_cmd (inputFilePath : string) : list string :=
  ["ffmpeg"; "-i"; inputFilePath; "-movflags"; "faststart";
   "-map_metadata"; "0"; "-codec"; "copy"; "-f"; "mp4"; inputFilePath +:+ ".processed"].

(** The files after a child process has run. *)
Definition fs_after (proc : ProcResult) (files : gmap string bytes) : gmap string bytes :=
  foldl (fun acc w => <[w.1 := w.2]> acc) files (written proc).

(** Aspect classification in the words of the specification:
    [ratio = floor((width/height) * 100)], compared by equality with
    [floor((16/9)*100)] and [floor((9/16)*100)]. *)
Definition aspect_classification (width height : float) : string :=
  let ratio := JS.Math_floor (PrimFloat.mul (PrimFloat.div width height) (JS.num 100)) in
  if JS.strict_eq ratio
       (JS.Math_floor (PrimFloat.mul (PrimFloat.div (JS.num 16) (JS.num 9)) (JS.num 100)))
  then "landscape"
  else if JS.strict_eq ratio
       (JS.Math_floor (PrimFloat.mul (PrimFloat.div (JS.num 9) (JS.num 16)) (JS.num 100)))
  then "portrait"
  else "other".

(** Storage key in the words of the specification:
    [{classification}/{videoId}.mp4]. *)
Definition storage_key (classification videoId : string) : string :=
  classification +:+ "/" +:+ videoId +:+ ".mp4".

(** What [getVideoAspectRatio] makes of a finished ffprobe. *)
Definition probe_outcome (proc : ProcResult) : Outcome string :=
  if negb (exited proc =? 0) then Thrown (Error (stderr proc))
  else match stdout proc with
       | None => Thrown SyntaxError
       | Some doc =>
           match streams doc with
           | None | Some [] => Thrown TypeError
           | Some (s :: _) =>
               Returned (aspect_classification (JS.ToNumber (width s)) (JS.ToNumber (height s)))
           end
       end.

(** Probe failures in the words of the specification: non-zero exit,
    malformed output, or missing stream data. *)
Definition probe_failed (proc : ProcResult) : bool :=
  negb (exited proc =? 0) ||
  match stdout proc with
  | None => true
  | Some doc =>
      match streams doc with
      | None | Some [] => true
      | Some (s :: _) =>
          negb (bool_decide (is_Some (width s))) || negb (bool_decide (is_Some (height s)))
      end
  end.

(** The front half of [handlerUploadVideo] as a test: the request names a
    video, carries a valid token, a body that decodes and a valid payload,
    and the record exists and belongs to the requester.  It yields the video identifier,
    the uploaded file and the stored row. *)
Definition accepted (env : Env) (cfg : ApiConfig) (req : BunRequest) (st : State)
  : option (string * File * Video) :=
  match params_videoId req with
  | None => None
  | Some videoId =>
  if negb (JS.truthy videoId) then None else
  match authorization req with
  | None => None
  | Some token =>
  match jwt_subject env token (jwtSecret cfg) with
  | None => None
  | Some user =>
  if body_decodes req then
  match formData_get (form req) "video" with
  | None | Some (FormString _) => None
  | Some (FormFile f) =>
  if size f >? GiB then None else
  if negb (JS.truthy (type f)) then None else
  if negb (String.eqb (type f) "video/mp4") then None else
  match db st !! videoId with
  | None => None
  | Some row =>
  if negb (String.eqb (userID row) user) then None else Some (videoId, f, row)
  end end
  else None
  end end end.

(** The files once the scratch file is written, the two child processes
    as they then run, and the files after each. *)
Definition fs_scratch (videoId : string) (f : File) (st : State) : gmap string bytes :=
  <[scratch_path videoId := content f]> (fs st).

Definition probe_of (env : Env) (videoId : string) (f : File) (st : State) : ProcResult :=
  run_process env (ffprobe_cmd (scratch_path videoId)) (fs_scratch videoId f st).

Definition fs_probed (env : Env) (videoId : string) (f : File) (st : State) : gmap string bytes :=
  fs_after (probe_of env videoId f st) (fs_scratch videoId f st).

Definition remux_of (env : Env) (videoId : string) (f : File) (st : State) : ProcResult :=
  run_process env (ffmpeg_cmd (scratch_path videoId)) (fs_probed env videoId f st).

Definition fs_remuxed (env : Env) (videoId : string) (f : File) (st : State) : gmap string bytes :=
  fs_after (remux_of env videoId f st) (fs_probed env videoId f st).

(** The message of a failed remux. *)
Definition remux_error (proc : ProcResult) : Exn :=
  Error ("Command failed with code " +:+ JS.num_to_string (exited proc) +:+ ": " +:+ stderr proc).

(** ** Statements of the specification that the code does not meet *)

(** An authenticated upload with an invalid payload ends in the
    validation error. *)
Definition invalid_payload_is_validation_error : Prop :=
  forall env cfg req st,
    authenticated env cfg req ->
    (payload_invalid "video" GiB ["video/mp4"] req = true ->
     exists e, (handlerUploadVideo env cfg req st).1 = Thrown e /\ ValidationError e) /\
    (payload_invalid "thumbnail" (10 * MiB) ["image/jpeg"; "image/png"] req = true ->
     exists e, (handlerUploadThumbnail env cfg req st).1 = Thrown e /\ ValidationError e).

(** A successful thumbnail upload is what the registry returns next. *)
Definition upload_fills_registry : Prop :=
  forall env cfg req st resp st' videoId f greq,
    handlerUploadThumbnail env cfg req st = (Returned resp, st') ->
    params_videoId req = Some videoId ->
    formData_get (form req) "thumbnail" = Some (FormFile f) ->
    params_videoId greq = Some videoId ->
    (handlerGetThumbnail cfg greq st').1 =
      Returned (BlobResponse (content f)
                  [("Content-Type", type f); ("Cache-Control", "no-store")]).

(** A bucket write happens only with a non-empty remuxed file. *)
Definition upload_requires_nonempty_output : Prop :=
  forall env cfg req st o st' l videoId,
    handlerUploadVideo env cfg req st = (o, st') ->
    params_videoId req = Some videoId ->
    new_events st st' l ->
    existsb is_s3_write l = true ->
    exists b, fs st' !! processed_path videoId = Some b /\ b <> [].

(** Every probe failure is an error carrying ffprobe's standard error. *)
Definition probe_failures_carry_diagnostics : Prop :=
  forall env filePath st,
    let proc := run_process env (ffprobe_cmd filePath) (fs st) in
    probe_failed proc = true ->
    (getVideoAspectRatio env filePath st).1 = Thrown (Error (stderr proc)).

(** ** Concrete requests *)

Module Fixture.

Definition cfg : ApiConfig := mkConfig "secret" "./assets" "8091" "tubely".

Definition row (videoId : string) : Video := mkVideo videoId "alice" None None.

(** One video, owned by alice; nothing else anywhere. *)
Definition st (videoId : string) : State :=
  mkState {[videoId := row videoId]} ∅ ∅ ∅ [] [].

Definition dims (w h : Z) : option ProbeDoc :=
  Some (mkProbeDoc (Some [mkStream (Some (JS.num w)) (Some (JS.num h))])).

(** Tokens name alice and bob; the two child processes end as given. *)
Definition env (ffprobe ffmpeg : ProcResult) : Env :=
  mkEnv (fun token _ =>
           if String.eqb token "tok-alice" then Some "alice"
           else if String.eqb token "tok-bob" then Some "bob" else None)
        (fun _ => "r4nd0m")
        (fun cmd _ =>
           match cmd with
           | "ffprobe" :: _ => ffprobe
           | _ => ffmpeg
           end)
        (fun _ _ => None)
        (fun key expiresIn =>
           "https://tubely.s3/" +:+ default "undefined" key +:+ "?X-Amz-Expires="
             +:+ JS.num_to_string expiresIn).

Definition probe_ok (w h : Z) : ProcResult := mkProc 0 (dims w h) "" [].

Definition remux_ok (videoId : string) (out : bytes) : ProcResult :=
  mkProc 0 None "" [(processed_path videoId, out)].

Definition png : File := mkFile 3 "image/png" [Byte.x89; Byte.x50; Byte.x4e].
Definition mp4 : File := mkFile 2 "video/mp4" [Byte.x00; Byte.x01].

Definition upload (videoId token field : string) (f : File) : BunRequest :=
  mkRequest (Some videoId) (Some token) true [(field, FormFile f)].

(** An upload request without a body. *)
Definition bodyless (videoId token : string) : BunRequest :=
  mkRequest (Some videoId) (Some token) false [].

Definition fetch (videoId : string) : BunRequest := mkRequest (Some videoId) None false [].

End Fixture.

(** The runs the statements below evaluate. *)
Module Run.
Import Fixture.

(** alice uploads a 1920x1080 video for her video [v1]; both child
    processes succeed. *)
Definition video_ok : Outcome Response * State :=
  handlerUploadVideo (env (probe_ok 1920 1080) (remux_ok "v1" [Byte.x01])) cfg
    (upload "v1" "tok-alice" "video" mp4) (st "v1").

(** The same upload when ffprobe exits with 1. *)
Definition video_probe_fails : Outcome Response * State :=
  handlerUploadVideo
    (env (mkProc 1 None "moov atom not found" []) (remux_ok "v1" [Byte.x01])) cfg
    (upload "v1" "tok-alice" "video" mp4) (st "v1").

(** The same upload when ffmpeg writes part of its output and exits
    with 1. *)
Definition video_remux_fails : Outcome Response * State :=
  handlerUploadVideo
    (env (probe_ok 1920 1080)
         (mkProc 1 None "Conversion failed!" [(processed_path "v1", [Byte.x01])])) cfg
    (upload "v1" "tok-alice" "video" mp4) (st "v1").

(** The same upload when ffmpeg exits with 0 and leaves an empty file. *)
Definition video_empty_output : Outcome Response * State :=
  handlerUploadVideo (env (probe_ok 1920 1080) (remux_ok "v1" [])) cfg
    (upload "v1" "tok-alice" "video" mp4) (st "v1").

(** alice uploads a PNG thumbnail for her video [v1]. *)
Definition thumbnail_ok : Outcome Response * State :=
  handlerUploadThumbnail (env (probe_ok 1920 1080) (remux_ok "v1" [Byte.x01])) cfg
    (upload "v1" "tok-alice" "thumbnail" png) (st "v1").

(** bob uploads a PNG thumbnail for alice's video [v1]. *)
Definition thumbnail_by_bob : Outcome Response * State :=
  handlerUploadThumbnail (env (probe_ok 1920 1080) (remux_ok "v1" [Byte.x01])) cfg
    (upload "v1" "tok-bob" "thumbnail" png) (st "v1").

(** alice uploads a 1080x1920 video for her video [abc]. *)
Definition video_portrait : Outcome Response * State :=
  handlerUploadVideo (env (probe_ok 1080 1920) (remux_ok "abc" [Byte.x01])) cfg
    (upload "abc" "tok-alice" "video" mp4) (st "abc").

(** Finished ffprobe processes: output that is not JSON, a document
    with no stream, and a stream without dimensions. *)
Definition probe_malformed : ProcResult :=
  mkProc 0 None "Invalid data found when processing input" [].
Definition probe_no_stream : ProcResult :=
  mkProc 0 (Some (mkProbeDoc (Some []))) "Stream specifier matches no streams" [].
Definition probe_no_dims : ProcResult :=
  mkProc 0 (Some (mkProbeDoc (Some [mkStream None None]))) "" [].

(** The probe on its own, on alice's scratch file. *)
Definition probe (p : ProcResult) : Outcome string * State :=
  getVideoAspectRatio (env p (remux_ok "v1" [Byte.x01])) (scratch_path "v1") (st "v1").

(** Reading a stored record back and signing it, as a handler that
    returns videos does with [dbVideoToSignedVideo]. *)
Definition read_signed (e : Env) (videoId : string) : M (option VideoRef) :=
  let* video := getVideo videoId in
  match video with
  | Some video => let* signed := dbVideoToSignedVideo e cfg video in ret (Some signed)
  | None => ret None
  end.

End Run.

(** ** Vocabulary of the further properties *)

From Stdlib Require Import Floats.FloatAxioms.

(** Events that read and write nothing but the console. *)
Definition is_lookup (e : Event) : bool :=
  match e with
  | EvConsoleLog _ | EvGetVideo _ => true
  | _ => false
  end.

(** The errors with which a handler refuses a request. *)
Definition refusal (e : Exn) : bool :=
  match e with
  | BadRequestError _ | NotFoundError _ | UserForbiddenError _
  | UserNotAuthenticatedError _ => true
  | _ => false
  end.

(** The checks of [handlerUploadVideo] up to the record lookup, as a test:
    it yields the video identifier, the requesting user and the file. *)
Definition validated_video (env : Env) (cfg : ApiConfig) (req : BunRequest)
  : option (string * string * File) :=
  match params_videoId req with
  | None => None
  | Some videoId =>
  if negb (JS.truthy videoId) then None else
  match authorization req with
  | None => None
  | Some token =>
  match jwt_subject env token (jwtSecret cfg) with
  | None => None
  | Some user =>
  if body_decodes req then
  match formData_get (form req) "video" with
  | None | Some (FormString _) => None
  | Some (FormFile f) =>
  if size f >? GiB then None else
  if negb (JS.truthy (type f)) then None else
  if negb (String.eqb (type f) "video/mp4") then None else Some (videoId, user, f)
  end
  else None
  end end end.

(** The same for [handlerUploadThumbnail], up to the file write. *)
Definition validated_thumbnail (env : Env) (cfg : ApiConfig) (req : BunRequest)
  : option (string * string * File) :=
  match params_videoId req with
  | None => None
  | Some videoId =>
  if negb (JS.truthy videoId) then None else
  match authorization req with
  | None => None
  | Some token =>
  match jwt_subject env token (jwtSecret cfg) with
  | None => None
  | Some user =>
  if body_decodes req then
  match formData_get (form req) "thumbnail" with
  | None | Some (FormString _) => None
  | Some (FormFile f) =>
  if size f >? 10 * MiB then None else
  if negb (JS.truthy (type f)) then None else
  if negb (String.eqb (type f) "image/jpeg") && negb (String.eqb (type f) "image/png")
  then None else Some (videoId, user, f)
  end
  else None
  end end end.

(** The file a thumbnail upload writes, and the URL it records. *)
Definition thumbnail_name (env : Env) (f : File) : string :=
  randomBytes_base64url env 32 +:+ JS.concat_elem "." (JS.split (type f) "/" !! 1%nat).

Definition thumbnail_path (env : Env) (cfg : ApiConfig) (f : File) : string :=
  JS.path_join (assetsRoot cfg) (thumbnail_name env f).

Definition thumbnail_url (env : Env) (cfg : ApiConfig) (f : File) : string :=
  "http://localhost:" +:+ port cfg +:+ "/assets/" +:+ thumbnail_name env f.

(** A row with one of its two locations replaced. *)
Definition with_videoURL (row : Video) (url : string) : Video :=
  mkVideo (id row) (userID row) (Some url) (thumbnailURL row).

Definition with_thumbnailURL (row : Video) (url : string) : Video :=
  mkVideo (id row) (userID row) (videoURL row) (Some url).

(** The requests of a server's life, handled one after the other. *)
Inductive Call :=
  | GetThumbnail (cfg : ApiConfig) (req : BunRequest)
  | UploadThumbnail (env : Env) (cfg : ApiConfig) (req : BunRequest)
  | UploadVideo (env : Env) (cfg : ApiConfig) (req : BunRequest).

Definition handle (c : Call) : M Response :=
  match c with
  | GetThumbnail cfg req => handlerGetThumbnail cfg req
  | UploadThumbnail env cfg req => handlerUploadThumbnail env cfg req
  | UploadVideo env cfg req => handlerUploadVideo env cfg req
  end.

(** The state after a list of calls, whatever each one answered. *)
Fixpoint serve (calls : list Call) (st : State) : State :=
  match calls with
  | [] => st
  | c :: rest => serve rest (handle c st).2
  end.

(** Every row is stored under its own identifier. *)
Definition well_keyed (rows : gmap string Video) : Prop :=
  forall k row, rows !! k = Some row -> id row = k.

(** Both orientations of a [16k x 9k] frame are recognised and a square
    one is not, for every [k] from 1 to [n]. *)
Fixpoint scales_classified (n : nat) : bool :=
  match n with
  | O => true
  | S m =>
      let k := Z.of_nat n in
      String.eqb (aspect_classification (JS.num (16 * k)) (JS.num (9 * k))) "landscape"
      && String.eqb (aspect_classification (JS.num (9 * k)) (JS.num (16 * k))) "portrait"
      && String.eqb (aspect_classification (JS.num k) (JS.num k)) "other"
      && scales_classified m
  end.

Module Scenario.

(** The environment of [Fixture.env] with a bucket that refuses writes. *)
Definition env_store_fails : Env :=
  let e := Fixture.env (Fixture.probe_ok 1920 1080) (Fixture.remux_ok "v1" [Byte.x01]) in
  mkEnv (jwt_subject e) (randomBytes_base64url e) (run_process e)
        (fun _ _ => Some "AccessDenied") (s3_presign e).

Definition env_ok : Env :=
  Fixture.env (Fixture.probe_ok 1920 1080) (Fixture.remux_ok "v1" [Byte.x01]).

Definition video_req (token : string) : BunRequest :=
  Fixture.upload "v1" token "video" Fixture.mp4.

Definition thumbnail_req (videoId token : string) : BunRequest :=
  Fixture.upload videoId token "thumbnail" Fixture.png.

End Scenario.

(** ** Symbolic execution of the monad *)

Lemma lookup_snoc (h : list Video) (v : Video) : app h [v] !! length h = Some v.
Proof. by apply list_lookup_middle. Qed.

Lemma insert_snoc (h : list Video) (v w : Video) : <[length h := w]> (app h [v]) = app h [w].
Proof.
  rewrite insert_app_r_alt by lia.
  by rewrite Nat.sub_diag.
Qed.

Ltac unfold_ops :=
  cbv beta iota zeta delta
    [bind ret throw emit set_db set_fs set_s3 set_heap get_state new_video read_video
     assign_videoURL assign_thumbnailURL getBearerToken validateJWT getVideo updateVideo
     respondWithJSON console_log formData videoThumbnails_get Bun_write Bun_file_exists
     rm_force Bun_spawn s3_file_write JSON_parse first_stream generatePresignedURL
     dbVideoToSignedVideo db videoThumbnails fs s3 heap trace].

Ltac unfold_ops_in H :=
  cbv beta iota zeta delta
    [bind ret throw emit set_db set_fs set_s3 set_heap get_state new_video read_video
     assign_videoURL assign_thumbnailURL getBearerToken validateJWT getVideo updateVideo
     respondWithJSON console_log formData videoThumbnails_get Bun_write Bun_file_exists
     rm_force Bun_spawn s3_file_write JSON_parse first_stream generatePresignedURL
     dbVideoToSignedVideo db videoThumbnails fs s3 heap trace] in H.

(** The two helpers in one equation each: one child process, its files,
    and the outcome read off its result. *)
Lemma getVideoAspectRatio_run (env : Env) (filePath : string) (st : State) :
  getVideoAspectRatio env filePath st =
    (probe_outcome (run_process env (ffprobe_cmd filePath) (fs st)),
     mkState (db st) (videoThumbnails st)
       (fs_after (run_process env (ffprobe_cmd filePath) (fs st)) (fs st))
       (s3 st) (heap st) (EvSpawn (ffprobe_cmd filePath) :: trace st)).
Proof.
  destruct st as [d t f s h tr].
  unfold getVideoAspectRatio, probe_outcome, aspect_classification, ffprobe_cmd, fs_after.
  unfold_ops.
  destruct (negb (exited (run_process env _ f) =? 0)); [reflexivity |].
  destruct (stdout (run_process env _ f)) as [doc|]; [| reflexivity].
  destruct (streams doc) as [[|s0 rest]|]; reflexivity.
Qed.

Lemma processVideoForFastStart_run (env : Env) (inputFilePath : string) (st : State) :
  processVideoForFastStart env inputFilePath st =
    (if negb (exited (run_process env (ffmpeg_cmd inputFilePath) (fs st)) =? 0)
     then Thrown (remux_error (run_process env (ffmpeg_cmd inputFilePath) (fs st)))
     else Returned (inputFilePath +:+ ".processed"),
     mkState (db st) (videoThumbnails st)
       (fs_after (run_process env (ffmpeg_cmd inputFilePath) (fs st)) (fs st))
       (s3 st) (heap st) (EvSpawn (ffmpeg_cmd inputFilePath) :: trace st)).
Proof.
  destruct st as [d t f s h tr].
  unfold processVideoForFastStart, remux_error, ffmpeg_cmd, fs_after.
  unfold_ops.
  destruct (negb (exited (run_process env _ f) =? 0)); reflexivity.
Qed.

Lemma MAX_UPLOAD_SIZE_video : JS.shl 1 30 = GiB.
Proof. reflexivity. Qed.

Lemma MAX_UPLOAD_SIZE_thumbnail : JS.shl 10 20 = 10 * MiB.
Proof. reflexivity. Qed.

(** Run the monad as far as it goes without a case analysis. *)
Ltac norm :=
  repeat (progress
    (unfold_ops;
     cbn [id userID videoURL thumbnailURL negb];
     rewrite ?insert_snoc, ?lookup_snoc, ?getVideoAspectRatio_run,
       ?processVideoForFastStart_run, ?MAX_UPLOAD_SIZE_video, ?MAX_UPLOAD_SIZE_thumbnail)).

Ltac norm_in H :=
  repeat (progress
    (unfold_ops_in H;
     cbn [id userID videoURL thumbnailURL negb] in H;
     rewrite ?insert_snoc, ?lookup_snoc, ?getVideoAspectRatio_run,
       ?processVideoForFastStart_run, ?MAX_UPLOAD_SIZE_video, ?MAX_UPLOAD_SIZE_thumbnail in H)).

(** The innermost stuck [match] of a term. *)
Ltac stuck_scrutinee t :=
  match t with
  | context [match ?x with _ => _ end] =>
      lazymatch x with
      | context [match _ with _ => _ end] => fail
      | _ => x
      end
  end.

(** One step on the goal: case analysis on the stuck scrutinee. *)
Ltac exec_step :=
  norm;
  lazymatch goal with
  | |- ?G => let x := stuck_scrutinee G in destruct x eqn:?
  end.

(** One step on a hypothesis; impossible branches are closed. *)
Ltac exec_step_in H :=
  norm_in H;
  lazymatch type of H with
  | ?T => let x := stuck_scrutinee T in destruct x eqn:?; try discriminate H
  end.

Ltac exec_in H := repeat exec_step_in H; norm_in H.

(** Rewrite the goal with the equations at hand. *)
Ltac use_eqs :=
  repeat match goal with
    | E : ?x = _ |- context [?x] =>
        lazymatch x with _ _ => rewrite E end
    end.

(** ** Thumbnail retrieval *)

Lemma handlerGetThumbnail_stores (cfg : ApiConfig) (req : BunRequest) (st : State) :
  stores_unchanged st (handlerGetThumbnail cfg req st).2.
Proof.
  destruct st as [d t f s h tr]. unfold handlerGetThumbnail.
  repeat exec_step; unfold_ops; repeat split.
Qed.

(** C10: thumbnail retrieval writes to none of the thumbnail registry, the
    record store and the file system (nor to the bucket); and when the
    requested video has no record it fails before any registry lookup,
    with the not-found error of the record lookup (a request whose
    identifier is empty is refused as a bad request before that). *)
Theorem handlerGetThumbnail_read_only (cfg : ApiConfig) (req : BunRequest) (st : State) :
  stores_unchanged st (handlerGetThumbnail cfg req st).2 /\
  forall videoId,
    params_videoId req = Some videoId -> db st !! videoId = None ->
    exists e l,
      (handlerGetThumbnail cfg req st).1 = Thrown e /\
      new_events st (handlerGetThumbnail cfg req st).2 l /\
      existsb is_registry_get l = false /\
      (videoId <> "" -> e = NotFoundError "Couldn't find video" /\ l = [EvGetVideo videoId]).
Proof.
  split; [apply handlerGetThumbnail_stores |].
  intros videoId Hid Hrow.
  destruct st as [d t f s h tr]. unfold handlerGetThumbnail, new_events.
  rewrite Hid. unfold JS.truthy.
  destruct (String.eqb_spec videoId "") as [->|Hne]; cbn [negb]; unfold_ops.
  - exists (BadRequestError "Invalid video ID"), [].
    split; [reflexivity |]. split; [reflexivity |]. split; [reflexivity |].
    intros Hne. by destruct Hne.
  - cbn in Hrow. rewrite Hrow.
    exists (NotFoundError "Couldn't find video"), [EvGetVideo videoId]. repeat split.
Qed.

Lemma handlerGetThumbnail_read_only_witness :
  (handlerGetThumbnail Fixture.cfg (Fixture.fetch "v2") (Fixture.st "v1")).1
  = Thrown (NotFoundError "Couldn't find video").
Proof.
  destruct (handlerGetThumbnail_read_only Fixture.cfg (Fixture.fetch "v2") (Fixture.st "v1"))
    as [_ Hmissing].
  destruct (Hmissing "v2") as (e & l & Hthrown & _ & _ & Hnotfound).
  - reflexivity.
  - vm_compute. reflexivity.
  - destruct Hnotfound as [-> _]; [discriminate |]. exact Hthrown.
Defined.

(** ** Validation comes first *)

(** A run that has thrown after console output at most. *)
Ltac rejected_leaf :=
  norm;
  split;
  [ eexists; split;
    [ reflexivity
    | split;
      [ first [ left; eexists; reflexivity | right; eexists; reflexivity ]
      | split; [ repeat split | first [ by exists [] | by eexists [_] ] ] ] ]
  | let token := fresh "token" in
    let user := fresh "user" in
    let Ha := fresh "Ha" in
    let Hj := fresh "Hj" in
    intros (token & user & Ha & Hj);
    first [ congruence | eexists; split; [ reflexivity | eexists; reflexivity ] ] ].

(** The payload passed every check of the handler, yet is invalid. *)
Ltac payload_contradiction H :=
  exfalso; cbn [existsb] in H;
  rewrite ?Z.gtb_ltb, ?MAX_UPLOAD_SIZE_video, ?MAX_UPLOAD_SIZE_thumbnail in *;
  repeat match goal with
    | E : context [String.eqb ?a ?b] |- _ => destruct (String.eqb a b)
    | E : context [Z.ltb ?a ?b] |- _ => destruct (Z.ltb a b)
    end;
  simpl in *; congruence.

(** Run the handler up to the first look at the form. *)
Ltac until_form :=
  repeat (norm;
          lazymatch goal with
          | |- context [formData_get (form _) _] => fail
          | _ => first [ rejected_leaf | exec_step ]
          end);
  norm.

Lemma handlerUploadVideo_validates (env : Env) (cfg : ApiConfig) (req : BunRequest) (st : State) :
  body_decodes req = true ->
  payload_invalid "video" GiB ["video/mp4"] req = true ->
  rejected_before_io st (handlerUploadVideo env cfg req st) /\
  (authenticated env cfg req ->
   exists e, (handlerUploadVideo env cfg req st).1 = Thrown e /\ ValidationError e).
Proof.
  intros Hdec H. destruct st as [d t f0 s h tr].
  unfold handlerUploadVideo, formData, payload_invalid, rejected_before_io, new_events in *.
  rewrite Hdec. until_form.
  destruct (formData_get (form req) "video") as [[f|str]|] eqn:Hget;
    repeat first [ rejected_leaf | payload_contradiction H | exec_step ].
Qed.

Lemma handlerUploadThumbnail_validates (env : Env) (cfg : ApiConfig) (req : BunRequest) (st : State) :
  body_decodes req = true ->
  payload_invalid "thumbnail" (10 * MiB) ["image/jpeg"; "image/png"] req = true ->
  rejected_before_io st (handlerUploadThumbnail env cfg req st) /\
  (authenticated env cfg req ->
   exists e, (handlerUploadThumbnail env cfg req st).1 = Thrown e /\ ValidationError e).
Proof.
  intros Hdec H. destruct st as [d t f0 s h tr].
  unfold handlerUploadThumbnail, formData, payload_invalid, rejected_before_io, new_events in *.
  rewrite Hdec. until_form.
  destruct (formData_get (form req) "thumbnail") as [[f|str]|] eqn:Hget;
    repeat first [ rejected_leaf | payload_contradiction H | exec_step ].
Qed.

(** A body that does not decode ends the upload at [req.formData()]: for a
    request with an identifier and a valid token the exception is the
    [TypeError] of that call, and only the console line has been written. *)
Lemma upload_body_undecodable (env : Env) (cfg : ApiConfig) (req : BunRequest) (st : State)
    (videoId token user : string) :
  params_videoId req = Some videoId -> videoId <> "" ->
  authorization req = Some token -> jwt_subject env token (jwtSecret cfg) = Some user ->
  body_decodes req = false ->
  handlerUploadVideo env cfg req st =
    (Thrown TypeError,
     mkState (db st) (videoThumbnails st) (fs st) (s3 st) (heap st)
       (EvConsoleLog ["uploading video"; videoId; "by user"; user] :: trace st)) /\
  handlerUploadThumbnail env cfg req st =
    (Thrown TypeError,
     mkState (db st) (videoThumbnails st) (fs st) (s3 st) (heap st)
       (EvConsoleLog ["uploading thumbnail for video"; videoId; "by user"; user] :: trace st)).
Proof.
  intros Hid Hne Hauth Hjwt Hdec. destruct st as [d t f0 s h tr].
  apply String.eqb_neq in Hne.
  unfold handlerUploadVideo, handlerUploadThumbnail, formData, JS.truthy.
  rewrite Hid, Hne, Hauth, Hdec. cbn [negb]. norm. rewrite Hjwt. norm.
  split; reflexivity.
Qed.

(** ** Video upload: what a successful run has done *)

Lemma handlerUploadVideo_returned (env : Env) (cfg : ApiConfig) (req : BunRequest)
    (st : State) (resp : Response) (st' : State) :
  handlerUploadVideo env cfg req st = (Returned resp, st') ->
  exists videoId f row c body,
    accepted env cfg req st = Some (videoId, f, row) /\
    probe_outcome (probe_of env videoId f st) = Returned c /\
    exited (remux_of env videoId f st) = 0 /\
    fs_remuxed env videoId f st !! processed_path videoId = Some body /\
    s3_write_failure env (s3Bucket cfg) (storage_key c videoId) = None /\
    let key := storage_key c videoId in
    let signed := mkVideo (id row) (userID row) (Some (s3_presign env (Some key) 360))
                    (thumbnailURL row) in
    resp = JSONResponse 200 signed /\
    st' = mkState (<[id row := signed]> (db st)) (videoThumbnails st)
            (delete (scratch_path videoId) (fs_remuxed env videoId f st))
            (<[(s3Bucket cfg, key) := mkS3Object body "video/mp4"]> (s3 st))
            (app (heap st) [signed])
            (app [EvFileRm (scratch_path videoId); EvUpdateVideo signed;
                  EvPresign (Some key) 360; EvS3Write (s3Bucket cfg) key;
                  EvFileExists (processed_path videoId);
                  EvSpawn (ffmpeg_cmd (scratch_path videoId));
                  EvSpawn (ffprobe_cmd (scratch_path videoId));
                  EvFileWrite (scratch_path videoId); EvGetVideo videoId;
                  EvConsoleLog ["uploading video"; videoId; "by user"; userID row]]
                 (trace st)).
Proof.
  intros H. destruct st as [d t f0 s h tr]. unfold handlerUploadVideo in H.
  exec_in H.
  injection H as <- <-.
  match goal with
  | E : negb (String.eqb (userID ?v) ?u) = false |- _ =>
      assert (u = userID v) as ->
        by (destruct (String.eqb_spec (userID v) u); [congruence | discriminate])
  end.
  match goal with
  | E : negb (exited ?p =? 0) = false |- _ =>
      assert (exited p = 0) by (destruct (Z.eqb_spec (exited p) 0); [assumption | discriminate])
  end.
  match goal with
  | Ev : params_videoId req = Some ?videoId,
    Ef : formData_get (form req) "video" = Some (FormFile ?f),
    Er : d !! ?videoId = Some ?row,
    Ec : probe_outcome _ = Returned ?c,
    Eb : _ !! _ = Some ?body |- _ =>
      exists videoId, f, row, c, body
  end.
  unfold accepted, fs_remuxed, remux_of, fs_probed, probe_of, fs_scratch, processed_path,
    scratch_path, storage_key.
  cbn [db videoThumbnails fs s3 heap trace app].
  use_eqs. cbn [negb].
  repeat split; assumption.
Qed.

(** ** Video upload: the failures after acceptance *)

(** Turn [accepted ... = Some _] into the equations of its tests. *)
Ltac accepted_eqs H :=
  unfold accepted in H; exec_in H; injection H as <- <- <-;
  match goal with
  | E : negb (String.eqb (userID ?v) ?u) = false |- _ =>
      assert (u = userID v) as ->
        by (destruct (String.eqb_spec (userID v) u); [congruence | discriminate])
  end.

(** Run the handler on the goal with the equations at hand. *)
Ltac run_with_eqs :=
  unfold fs_remuxed, remux_of, fs_probed, probe_of, fs_scratch, processed_path,
    scratch_path, storage_key in *;
  cbn [db videoThumbnails fs s3 heap trace app] in *;
  repeat (progress (norm; use_eqs)).

Lemma handlerUploadVideo_probe_fails (env : Env) (cfg : ApiConfig) (req : BunRequest)
    (st : State) (videoId : string) (f : File) (row : Video) (e : Exn) :
  accepted env cfg req st = Some (videoId, f, row) ->
  probe_outcome (probe_of env videoId f st) = Thrown e ->
  handlerUploadVideo env cfg req st =
    (Thrown e,
     mkState (db st) (videoThumbnails st) (fs_probed env videoId f st) (s3 st)
       (app (heap st) [row])
       (app [EvSpawn (ffprobe_cmd (scratch_path videoId));
             EvFileWrite (scratch_path videoId); EvGetVideo videoId;
             EvConsoleLog ["uploading video"; videoId; "by user"; userID row]]
            (trace st))).
Proof.
  intros Hacc Hprobe. destruct st as [d t f0 s h tr].
  accepted_eqs Hacc. unfold handlerUploadVideo. run_with_eqs.
  reflexivity.
Qed.

Lemma handlerUploadVideo_remux_fails (env : Env) (cfg : ApiConfig) (req : BunRequest)
    (st : State) (videoId : string) (f : File) (row : Video) (c : string) :
  accepted env cfg req st = Some (videoId, f, row) ->
  probe_outcome (probe_of env videoId f st) = Returned c ->
  exited (remux_of env videoId f st) <> 0 ->
  handlerUploadVideo env cfg req st =
    (Thrown (remux_error (remux_of env videoId f st)),
     mkState (db st) (videoThumbnails st) (fs_remuxed env videoId f st) (s3 st)
       (app (heap st)
          [mkVideo (id row) (userID row) (Some (storage_key c videoId)) (thumbnailURL row)])
       (app [EvSpawn (ffmpeg_cmd (scratch_path videoId));
             EvSpawn (ffprobe_cmd (scratch_path videoId));
             EvFileWrite (scratch_path videoId); EvGetVideo videoId;
             EvConsoleLog ["uploading video"; videoId; "by user"; userID row]]
            (trace st))).
Proof.
  intros Hacc Hprobe Hexit. apply Z.eqb_neq in Hexit. destruct st as [d t f0 s h tr].
  accepted_eqs Hacc. unfold handlerUploadVideo. run_with_eqs.
  reflexivity.
Qed.

Lemma handlerUploadVideo_output_missing (env : Env) (cfg : ApiConfig) (req : BunRequest)
    (st : State) (videoId : string) (f : File) (row : Video) (c : string) :
  accepted env cfg req st = Some (videoId, f, row) ->
  probe_outcome (probe_of env videoId f st) = Returned c ->
  exited (remux_of env videoId f st) = 0 ->
  fs_remuxed env videoId f st !! processed_path videoId = None ->
  handlerUploadVideo env cfg req st =
    (Thrown (Error "Processed file was not created"),
     mkState (db st) (videoThumbnails st) (fs_remuxed env videoId f st) (s3 st)
       (app (heap st)
          [mkVideo (id row) (userID row) (Some (storage_key c videoId)) (thumbnailURL row)])
       (app [EvFileExists (processed_path videoId);
             EvSpawn (ffmpeg_cmd (scratch_path videoId));
             EvSpawn (ffprobe_cmd (scratch_path videoId));
             EvFileWrite (scratch_path videoId); EvGetVideo videoId;
             EvConsoleLog ["uploading video"; videoId; "by user"; userID row]]
            (trace st))).
Proof.
  intros Hacc Hprobe Hexit Hnone. apply Z.eqb_eq in Hexit. destruct st as [d t f0 s h tr].
  accepted_eqs Hacc. unfold handlerUploadVideo. run_with_eqs.
  reflexivity.
Qed.

Lemma handlerUploadVideo_store_fails (env : Env) (cfg : ApiConfig) (req : BunRequest)
    (st : State) (videoId : string) (f : File) (row : Video) (c : string)
    (body : bytes) (msg : string) :
  accepted env cfg req st = Some (videoId, f, row) ->
  probe_outcome (probe_of env videoId f st) = Returned c ->
  exited (remux_of env videoId f st) = 0 ->
  fs_remuxed env videoId f st !! processed_path videoId = Some body ->
  s3_write_failure env (s3Bucket cfg) (storage_key c videoId) = Some msg ->
  handlerUploadVideo env cfg req st =
    (Thrown (StoreError msg),
     mkState (db st) (videoThumbnails st) (fs_remuxed env videoId f st) (s3 st)
       (app (heap st)
          [mkVideo (id row) (userID row) (Some (storage_key c videoId)) (thumbnailURL row)])
       (app [EvS3Write (s3Bucket cfg) (storage_key c videoId);
             EvFileExists (processed_path videoId);
             EvSpawn (ffmpeg_cmd (scratch_path videoId));
             EvSpawn (ffprobe_cmd (scratch_path videoId));
             EvFileWrite (scratch_path videoId); EvGetVideo videoId;
             EvConsoleLog ["uploading video"; videoId; "by user"; userID row]]
            (trace st))).
Proof.
  intros Hacc Hprobe Hexit Hbody Hfail. apply Z.eqb_eq in Hexit.
  destruct st as [d t f0 s h tr].
  accepted_eqs Hacc. unfold handlerUploadVideo. run_with_eqs.
  reflexivity.
Qed.

(** ** Thumbnail upload *)

Lemma handlerUploadThumbnail_registry (env : Env) (cfg : ApiConfig) (req : BunRequest)
    (st : State) :
  videoThumbnails (handlerUploadThumbnail env cfg req st).2 = videoThumbnails st.
Proof.
  destruct (handlerUploadThumbnail env cfg req st) as [o st'] eqn:H. cbn [snd].
  destruct st as [d t f0 s h tr]. unfold handlerUploadThumbnail in H.
  exec_in H; injection H as <- <-; reflexivity.
Qed.

Lemma handlerUploadThumbnail_returned (env : Env) (cfg : ApiConfig) (req : BunRequest)
    (st : State) (resp : Response) (st' : State) :
  handlerUploadThumbnail env cfg req st = (Returned resp, st') ->
  exists videoId f row ext,
    params_videoId req = Some videoId /\
    formData_get (form req) "thumbnail" = Some (FormFile f) /\
    db st !! videoId = Some row /\
    (type f = "image/jpeg" /\ ext = "jpeg" \/ type f = "image/png" /\ ext = "png") /\
    let name := randomBytes_base64url env 32 +:+ "." +:+ ext in
    let updated := mkVideo (id row) (userID row) (videoURL row)
                     (Some ("http://localhost:" +:+ port cfg +:+ "/assets/" +:+ name)) in
    resp = JSONResponse 200 updated /\
    fs st' = <[JS.path_join (assetsRoot cfg) name := content f]> (fs st) /\
    db st' = <[id row := updated]> (db st) /\
    videoThumbnails st' = videoThumbnails st /\
    s3 st' = s3 st.
Proof.
  intros H. destruct st as [d t f0 s h tr]. unfold handlerUploadThumbnail in H.
  exec_in H. injection H as <- <-.
  match goal with
  | Ev : params_videoId req = Some ?videoId,
    Ef : formData_get (form req) "thumbnail" = Some (FormFile ?f),
    Er : d !! ?videoId = Some ?row |- _ =>
      exists videoId, f, row
  end.
  match goal with
  | E : negb (String.eqb (type ?f) "image/jpeg") && negb (String.eqb (type ?f) "image/png")
        = false |- _ =>
      destruct (String.eqb_spec (type f) "image/jpeg") as [Hj|_];
      [ exists "jpeg"; rewrite Hj
      | destruct (String.eqb_spec (type f) "image/png") as [Hp|_];
        [ exists "png"; rewrite Hp | discriminate E ] ]
  end;
  cbn [db videoThumbnails fs s3 heap trace];
  repeat split; auto.
Qed.

(** * The claims *)

(** C1 (the code departs from it): the record a successful video upload
    persists carries the signed URL in its video location, not the storage
    key.  At alice's upload of a 1920x1080 file for [v1] the object goes to
    the bucket under [landscape/v1.mp4], the response and the stored row
    both carry the signed URL, and signing the stored row again presigns
    that URL as if it were a key. *)
Theorem handlerUploadVideo_persists_signed_url :
  Run.video_ok.1 =
    Returned (JSONResponse 200
      (mkVideo "v1" "alice" (Some "https://tubely.s3/landscape/v1.mp4?X-Amz-Expires=360") None)) /\
  s3 Run.video_ok.2 !! ("tubely", "landscape/v1.mp4") = Some (mkS3Object [Byte.x01] "video/mp4") /\
  db Run.video_ok.2 !! "v1" =
    Some (mkVideo "v1" "alice" (Some "https://tubely.s3/landscape/v1.mp4?X-Amz-Expires=360") None) /\
  videoURL <$> (db Run.video_ok.2 !! "v1") <> Some (Some "landscape/v1.mp4") /\
  hd_error (trace (Run.read_signed
                     (Fixture.env (Fixture.probe_ok 1920 1080) (Fixture.remux_ok "v1" [Byte.x01]))
                     "v1" Run.video_ok.2).2) =
    Some (EvPresign (Some "https://tubely.s3/landscape/v1.mp4?X-Amz-Expires=360") 360).
Proof.
  repeat split; try (vm_compute; reflexivity).
  vm_compute. discriminate.
Qed.

(** C2 as stated fails: alice's thumbnail upload for [v1] succeeds, yet the
    registry holds nothing under [v1] afterwards, and retrieval answers
    not-found instead of the uploaded bytes. *)
Lemma upload_fills_registry_fails :
  (exists resp, Run.thumbnail_ok.1 = Returned resp) /\
  videoThumbnails Run.thumbnail_ok.2 !! "v1" = None /\
  (handlerGetThumbnail Fixture.cfg (Fixture.fetch "v1") Run.thumbnail_ok.2).1 =
    Thrown (NotFoundError "Thumbnail not found") /\
  ~ upload_fills_registry.
Proof.
  split; [eexists; vm_compute; reflexivity |].
  split; [vm_compute; reflexivity |].
  split; [vm_compute; reflexivity |].
  intros Hclaim.
  assert (exists resp st', Run.thumbnail_ok = (Returned resp, st')
            /\ (handlerGetThumbnail Fixture.cfg (Fixture.fetch "v1") st').1 =
               Thrown (NotFoundError "Thumbnail not found"))
    as (resp & st' & Hrun & Hget)
    by (eexists _, _; vm_compute; split; reflexivity).
  specialize (Hclaim _ _ _ _ resp st' "v1" Fixture.png (Fixture.fetch "v1")
                Hrun eq_refl eq_refl eq_refl).
  rewrite Hget in Hclaim. discriminate Hclaim.
Qed.

(** C2 (amended): a thumbnail upload never writes the thumbnail registry;
    one that succeeds has written the raw payload to the file
    [<assetsRoot>/<random>.<subtype>] and has stored and returned the
    record with the thumbnail URL
    [http://localhost:<port>/assets/<random>.<subtype>].  Retrieval for a
    video with a record returns exactly the payload and media type the
    registry holds under its identifier, and the not-found error when the
    registry holds nothing there. *)
Theorem thumbnail_upload_stores_file (env : Env) (cfg : ApiConfig) (req : BunRequest)
    (st : State) :
  videoThumbnails (handlerUploadThumbnail env cfg req st).2 = videoThumbnails st /\
  (forall resp st',
     handlerUploadThumbnail env cfg req st = (Returned resp, st') ->
     exists videoId f row ext,
       params_videoId req = Some videoId /\
       formData_get (form req) "thumbnail" = Some (FormFile f) /\
       db st !! videoId = Some row /\
       (type f = "image/jpeg" /\ ext = "jpeg" \/ type f = "image/png" /\ ext = "png") /\
       let name := randomBytes_base64url env 32 +:+ "." +:+ ext in
       let updated := mkVideo (id row) (userID row) (videoURL row)
                        (Some ("http://localhost:" +:+ port cfg +:+ "/assets/" +:+ name)) in
       resp = JSONResponse 200 updated /\
       fs st' = <[JS.path_join (assetsRoot cfg) name := content f]> (fs st) /\
       db st' = <[id row := updated]> (db st)) /\
  (forall greq videoId,
     params_videoId greq = Some videoId -> videoId <> "" -> is_Some (db st !! videoId) ->
     (handlerGetThumbnail cfg greq st).1 =
       match videoThumbnails st !! videoId with
       | Some thumbnail =>
           Returned (BlobResponse (data thumbnail)
                       [("Content-Type", mediaType thumbnail); ("Cache-Control", "no-store")])
       | None => Thrown (NotFoundError "Thumbnail not found")
       end).
Proof.
  split; [apply handlerUploadThumbnail_registry |].
  split.
  - intros resp st' H.
    destruct (handlerUploadThumbnail_returned env cfg req st resp st' H)
      as (videoId & f & row & ext & Hv & Hf & Hr & Hext & Hresp & Hfs & Hdb & _).
    exists videoId, f, row, ext. auto 10.
  - intros greq videoId Hid Hne [row Hrow].
    destruct st as [d t f s h tr]. unfold handlerGetThumbnail.
    rewrite Hid. apply String.eqb_neq in Hne.
    unfold JS.truthy. rewrite Hne. norm.
    cbn in Hrow. rewrite Hrow. norm.
    destruct (t !! videoId); reflexivity.
Qed.

Lemma thumbnail_upload_stores_file_witness :
  fs Run.thumbnail_ok.2 = <["assets/r4nd0m.png" := content Fixture.png]> ∅ /\
  (handlerGetThumbnail Fixture.cfg (Fixture.fetch "v1") (Fixture.st "v1")).1 =
    Thrown (NotFoundError "Thumbnail not found").
Proof.
  pose proof (thumbnail_upload_stores_file
    (Fixture.env (Fixture.probe_ok 1920 1080) (Fixture.remux_ok "v1" [Byte.x01]))
    Fixture.cfg (Fixture.upload "v1" "tok-alice" "thumbnail" Fixture.png) (Fixture.st "v1"))
    as (_ & Hup & Hget).
  assert (exists resp st', Run.thumbnail_ok = (Returned resp, st')) as (resp & st' & Hrun)
    by (eexists _, _; vm_compute; reflexivity).
  split.
  - destruct (Hup resp st' Hrun)
      as (videoId & f & row & ext & Hv & Hf & Hr & Hext & Hresp & Hfs & Hdb).
    injection Hv as <-. injection Hf as <-.
    destruct Hext as [[Ht _]|[_ ->]]; [discriminate Ht |].
    rewrite Hrun. exact Hfs.
  - apply (Hget (Fixture.fetch "v1") "v1").
    + reflexivity.
    + discriminate.
    + eexists. vm_compute. reflexivity.
Defined.

(** The errors a probe can end in. *)
Lemma probe_outcome_thrown (proc : ProcResult) (e : Exn) :
  probe_outcome proc = Thrown e ->
  e = Error (stderr proc) \/ e = SyntaxError \/ e = TypeError.
Proof.
  unfold probe_outcome.
  destruct (negb (exited proc =? 0)); [intros [= <-]; auto |].
  destruct (stdout proc) as [doc|]; [| intros [= <-]; auto].
  destruct (streams doc) as [[|s rest]|]; intros [= <-] || discriminate; auto.
Qed.

(** On the video path the ownership check precedes every write: a video
    upload that ends in the authorization error has left the four stores
    as they were. *)
Lemma handlerUploadVideo_forbidden (env : Env) (cfg : ApiConfig) (req : BunRequest)
    (st : State) (e : Exn) (st' : State) :
  handlerUploadVideo env cfg req st = (Thrown e, st') ->
  AuthorizationError e ->
  stores_unchanged st st'.
Proof.
  intros H [msg Hmsg]. subst e.
  destruct st as [d t f0 s h tr]. unfold handlerUploadVideo in H.
  exec_in H; injection H as He Hst; subst; unfold remux_error in *; try discriminate;
    try match goal with
      | E : probe_outcome _ = Thrown (UserForbiddenError _) |- _ =>
          apply probe_outcome_thrown in E; destruct E as [E|[E|E]]; discriminate E
      end;
    repeat split.
Qed.

(** On the thumbnail path it does not: a thumbnail upload that ends in the
    authorization error has written the payload under the assets root. *)
Lemma handlerUploadThumbnail_forbidden (env : Env) (cfg : ApiConfig) (req : BunRequest)
    (st : State) (e : Exn) (st' : State) :
  handlerUploadThumbnail env cfg req st = (Thrown e, st') ->
  AuthorizationError e ->
  exists f fullPath,
    formData_get (form req) "thumbnail" = Some (FormFile f) /\
    fs st' = <[fullPath := content f]> (fs st) /\
    db st' = db st.
Proof.
  intros H [msg Hmsg]. subst e.
  destruct st as [d t f0 s h tr]. unfold handlerUploadThumbnail in H.
  exec_in H; injection H as He Hst; subst; try discriminate.
  eexists _, _. cbn [db fs]. repeat split.
Qed.

(** C3 (the code departs from it on the thumbnail path): bob's upload of a
    valid PNG for alice's video [v1] ends in the authorization error and
    leaves the record as it was, but the payload has been written to the
    assets directory before the ownership check. *)
Theorem handlerUploadThumbnail_writes_before_ownership_check :
  Run.thumbnail_by_bob.1 = Thrown (UserForbiddenError "Not authorized to update this video") /\
  db Run.thumbnail_by_bob.2 = db (Fixture.st "v1") /\
  fs (Fixture.st "v1") !! "assets/r4nd0m.png" = None /\
  fs Run.thumbnail_by_bob.2 !! "assets/r4nd0m.png" = Some (content Fixture.png) /\
  trace Run.thumbnail_by_bob.2 =
    [EvGetVideo "v1"; EvFileWrite "assets/r4nd0m.png";
     EvConsoleLog ["uploading thumbnail for video"; "v1"; "by user"; "bob"]].
Proof.
  repeat split; vm_compute; reflexivity.
Qed.

Lemma append_ne (s t : string) : t <> "" -> s <> s +:+ t.
Proof.
  intros Ht. induction s as [|c s IH]; cbn.
  - intros H. by apply Ht.
  - intros [= H]. by apply IH.
Qed.

(** After every successful video upload the scratch file is gone and the
    remuxed file is still on disk. *)
Lemma handlerUploadVideo_keeps_processed_file (env : Env) (cfg : ApiConfig)
    (req : BunRequest) (st : State) (resp : Response) (st' : State) :
  handlerUploadVideo env cfg req st = (Returned resp, st') ->
  exists videoId f row body,
    accepted env cfg req st = Some (videoId, f, row) /\
    fs st' !! scratch_path videoId = None /\
    fs st' !! processed_path videoId = Some body.
Proof.
  intros H.
  destruct (handlerUploadVideo_returned _ _ _ _ _ _ H)
    as (videoId & f & row & c & body & Hacc & _ & _ & Hbody & _ & _ & ->).
  exists videoId, f, row, body. cbn [fs].
  split; [exact Hacc |]. split.
  - apply lookup_delete_eq.
  - rewrite lookup_delete_ne; [exact Hbody |].
    unfold processed_path. by apply append_ne.
Qed.

(** C4 (the code departs from it): the handler removes the scratch file
    only at the end of a successful run and never removes the remuxed
    file.  After alice's successful upload [/tmp/v1.mp4.processed] is
    still there; after a failed probe the scratch file is still there;
    after a failed remux both files are. *)
Theorem handlerUploadVideo_leaves_files :
  ((exists resp, Run.video_ok.1 = Returned resp) /\
   fs Run.video_ok.2 !! scratch_path "v1" = None /\
   fs Run.video_ok.2 !! processed_path "v1" = Some [Byte.x01]) /\
  (Run.video_probe_fails.1 = Thrown (Error "moov atom not found") /\
   fs Run.video_probe_fails.2 !! scratch_path "v1" = Some (content Fixture.mp4)) /\
  (Run.video_remux_fails.1 = Thrown (Error "Command failed with code 1: Conversion failed!") /\
   fs Run.video_remux_fails.2 !! scratch_path "v1" = Some (content Fixture.mp4) /\
   fs Run.video_remux_fails.2 !! processed_path "v1" = Some [Byte.x01]).
Proof.
  repeat split; try (eexists; vm_compute; reflexivity); vm_compute; reflexivity.
Qed.

(** C5 as stated fails: when ffmpeg exits with 0 and leaves an empty file,
    the upload goes through and the bucket receives an empty object. *)
Lemma empty_output_is_uploaded :
  (exists resp, Run.video_empty_output.1 = Returned resp) /\
  fs Run.video_empty_output.2 !! processed_path "v1" = Some [] /\
  s3 Run.video_empty_output.2 !! ("tubely", "landscape/v1.mp4") = Some (mkS3Object [] "video/mp4") /\
  ~ upload_requires_nonempty_output.
Proof.
  split; [eexists; vm_compute; reflexivity |].
  split; [vm_compute; reflexivity |].
  split; [vm_compute; reflexivity |].
  intros Hclaim.
  assert (exists o st', Run.video_empty_output = (o, st')
            /\ existsb is_s3_write (trace st') = true
            /\ fs st' !! processed_path "v1" = Some [])
    as (o & st' & Hrun & Hs3 & Hfs)
    by (eexists _, _; vm_compute; repeat split; reflexivity).
  destruct (Hclaim _ _ _ _ o st' (trace st') "v1" Hrun eq_refl) as (b & Hb & Hne).
  - unfold new_events. cbn [Fixture.st trace]. by rewrite app_nil_r.
  - exact Hs3.
  - rewrite Hfs in Hb. injection Hb as <-. by apply Hne.
Qed.

(** C5 (amended): the remuxer writes to [<input>.processed] and returns
    that path when ffmpeg exits with 0; a non-zero exit fails the request
    with an error naming the exit code and the diagnostic output, before
    any bucket or record write; and before uploading, the handler checks
    that the output file exists (its size is not looked at), failing with
    an error when it is absent even though ffmpeg reported success.  The
    object a successful upload puts in the bucket is that file. *)
Theorem remux_contract (env : Env) :
  (forall inputFilePath st,
     let proc := run_process env (ffmpeg_cmd inputFilePath) (fs st) in
     last (ffmpeg_cmd inputFilePath) = Some (inputFilePath +:+ ".processed") /\
     (exited proc = 0 ->
      (processVideoForFastStart env inputFilePath st).1 =
        Returned (inputFilePath +:+ ".processed")) /\
     (exited proc <> 0 ->
      (processVideoForFastStart env inputFilePath st).1 =
        Thrown (Error ("Command failed with code " +:+ JS.num_to_string (exited proc)
                         +:+ ": " +:+ stderr proc)))) /\
  (forall cfg req st videoId f row c,
     accepted env cfg req st = Some (videoId, f, row) ->
     probe_outcome (probe_of env videoId f st) = Returned c ->
     (exited (remux_of env videoId f st) <> 0 ->
      (handlerUploadVideo env cfg req st).1 = Thrown (remux_error (remux_of env videoId f st)) /\
      s3 (handlerUploadVideo env cfg req st).2 = s3 st /\
      db (handlerUploadVideo env cfg req st).2 = db st) /\
     (exited (remux_of env videoId f st) = 0 ->
      fs_remuxed env videoId f st !! processed_path videoId = None ->
      (handlerUploadVideo env cfg req st).1 = Thrown (Error "Processed file was not created") /\
      s3 (handlerUploadVideo env cfg req st).2 = s3 st /\
      db (handlerUploadVideo env cfg req st).2 = db st)) /\
  (forall cfg req st resp st',
     handlerUploadVideo env cfg req st = (Returned resp, st') ->
     exists videoId f row c body,
       accepted env cfg req st = Some (videoId, f, row) /\
       exited (remux_of env videoId f st) = 0 /\
       fs_remuxed env videoId f st !! processed_path videoId = Some body /\
       s3 st' !! (s3Bucket cfg, storage_key c videoId) = Some (mkS3Object body "video/mp4")).
Proof.
  split; [| split].
  - intros inputFilePath st proc. subst proc.
    rewrite processVideoForFastStart_run. cbn [fst].
    split; [reflexivity |]. split; intros Hexit.
    + by rewrite Hexit.
    + apply Z.eqb_neq in Hexit. by rewrite Hexit.
  - intros cfg req st videoId f row c Hacc Hprobe. split.
    + intros Hexit.
      by rewrite (handlerUploadVideo_remux_fails _ _ _ _ _ _ _ _ Hacc Hprobe Hexit).
    + intros Hexit Hnone.
      by rewrite (handlerUploadVideo_output_missing _ _ _ _ _ _ _ _ Hacc Hprobe Hexit Hnone).
  - intros cfg req st resp st' H.
    destruct (handlerUploadVideo_returned _ _ _ _ _ _ H)
      as (videoId & f & row & c & body & Hacc & Hprobe & Hexit & Hbody & Hok & Hresp & ->).
    exists videoId, f, row, c, body. repeat split; try assumption.
    cbn [s3]. apply lookup_insert_eq.
Qed.

Lemma remux_contract_witness :
  Run.video_remux_fails.1 = Thrown (Error "Command failed with code 1: Conversion failed!").
Proof.
  pose proof (remux_contract
    (Fixture.env (Fixture.probe_ok 1920 1080)
       (mkProc 1 None "Conversion failed!" [(processed_path "v1", [Byte.x01])])))
    as (_ & Hfail & _).
  destruct (Hfail Fixture.cfg (Fixture.upload "v1" "tok-alice" "video" Fixture.mp4)
              (Fixture.st "v1") "v1" Fixture.mp4 (Fixture.row "v1") "landscape")
    as [Hexit _].
  - vm_compute. reflexivity.
  - vm_compute. reflexivity.
  - destruct Hexit as [Hthrown _].
    + vm_compute. discriminate.
    + etransitivity; [exact Hthrown | vm_compute; reflexivity].
Defined.

(** C6 as stated fails: alice's upload without a body has no payload, yet
    it does not end in the validation error: [req.formData()] throws its
    [TypeError] before the payload checks.  Nothing has been written. *)
Lemma invalid_payload_is_validation_error_fails :
  authenticated (Fixture.env (Fixture.probe_ok 1920 1080) (Fixture.remux_ok "v1" []))
    Fixture.cfg (Fixture.bodyless "v1" "tok-alice") /\
  payload_invalid "video" GiB ["video/mp4"] (Fixture.bodyless "v1" "tok-alice") = true /\
  (handlerUploadVideo (Fixture.env (Fixture.probe_ok 1920 1080) (Fixture.remux_ok "v1" []))
     Fixture.cfg (Fixture.bodyless "v1" "tok-alice") (Fixture.st "v1")).1 = Thrown TypeError /\
  ~ ValidationError TypeError /\
  ~ invalid_payload_is_validation_error.
Proof.
  assert (authenticated (Fixture.env (Fixture.probe_ok 1920 1080) (Fixture.remux_ok "v1" []))
            Fixture.cfg (Fixture.bodyless "v1" "tok-alice")) as Hauth
    by (exists "tok-alice", "alice"; split; reflexivity).
  assert (~ ValidationError TypeError) as Hnot by (intros [msg Hmsg]; discriminate Hmsg).
  split; [exact Hauth |]. split; [reflexivity |].
  split; [vm_compute; reflexivity |]. split; [exact Hnot |].
  intros Hclaim.
  destruct (Hclaim _ _ _ (Fixture.st "v1") Hauth) as [Hvideo _].
  destruct (Hvideo eq_refl) as (e & Hthrown & Hval).
  vm_compute in Hthrown. injection Hthrown as <-. by apply Hnot.
Qed.

(** C6 (amended): an upload whose body decodes as form data and whose
    payload is missing from the form, exceeds the size ceiling (1 GiB for a
    video, 10 MiB for a thumbnail) or declares a media type outside the
    accepted set (video/mp4; image/jpeg and image/png) fails with an
    exception and has written to none of the file system, the bucket, the
    registry and the record store; the only events before it are console
    output.  The exception is the validation error whenever the request
    carries a valid token (without one it is the authentication error
    raised before the payload is looked at).  An upload whose body does
    not decode fails before any write as well, but with the [TypeError] of
    [req.formData()]. *)
Theorem invalid_payload_rejected (env : Env) (cfg : ApiConfig) (req : BunRequest) (st : State) :
  (body_decodes req = true ->
   payload_invalid "video" GiB ["video/mp4"] req = true ->
   rejected_before_io st (handlerUploadVideo env cfg req st) /\
   (authenticated env cfg req ->
    exists e, (handlerUploadVideo env cfg req st).1 = Thrown e /\ ValidationError e)) /\
  (body_decodes req = true ->
   payload_invalid "thumbnail" (10 * MiB) ["image/jpeg"; "image/png"] req = true ->
   rejected_before_io st (handlerUploadThumbnail env cfg req st) /\
   (authenticated env cfg req ->
    exists e, (handlerUploadThumbnail env cfg req st).1 = Thrown e /\ ValidationError e)) /\
  (body_decodes req = false ->
   forall videoId token user,
     params_videoId req = Some videoId -> videoId <> "" ->
     authorization req = Some token -> jwt_subject env token (jwtSecret cfg) = Some user ->
     handlerUploadVideo env cfg req st =
       (Thrown TypeError,
        mkState (db st) (videoThumbnails st) (fs st) (s3 st) (heap st)
          (EvConsoleLog ["uploading video"; videoId; "by user"; user] :: trace st)) /\
     handlerUploadThumbnail env cfg req st =
       (Thrown TypeError,
        mkState (db st) (videoThumbnails st) (fs st) (s3 st) (heap st)
          (EvConsoleLog ["uploading thumbnail for video"; videoId; "by user"; user]
             :: trace st))).
Proof.
  split; [| split].
  - apply handlerUploadVideo_validates.
  - apply handlerUploadThumbnail_validates.
  - intros Hdec videoId token user Hid Hne Hauth Hjwt.
    by apply (upload_body_undecodable env cfg req st videoId token user).
Qed.

Lemma invalid_payload_rejected_witness :
  (exists e,
     (handlerUploadVideo (Fixture.env (Fixture.probe_ok 1920 1080) (Fixture.remux_ok "v1" []))
        Fixture.cfg
        (Fixture.upload "v1" "tok-alice" "video" (mkFile (GiB + 1) "video/mp4" []))
        (Fixture.st "v1")).1 = Thrown e /\ ValidationError e) /\
  (exists e,
     (handlerUploadThumbnail (Fixture.env (Fixture.probe_ok 1920 1080) (Fixture.remux_ok "v1" []))
        Fixture.cfg
        (Fixture.upload "v1" "tok-alice" "thumbnail" (mkFile 3 "image/gif" [Byte.x47]))
        (Fixture.st "v1")).1 = Thrown e /\ ValidationError e) /\
  (handlerUploadThumbnail (Fixture.env (Fixture.probe_ok 1920 1080) (Fixture.remux_ok "v1" []))
     Fixture.cfg (Fixture.bodyless "v1" "tok-alice") (Fixture.st "v1")).1 = Thrown TypeError.
Proof.
  split; [| split].
  - destruct (invalid_payload_rejected
      (Fixture.env (Fixture.probe_ok 1920 1080) (Fixture.remux_ok "v1" [])) Fixture.cfg
      (Fixture.upload "v1" "tok-alice" "video" (mkFile (GiB + 1) "video/mp4" []))
      (Fixture.st "v1")) as (Hvideo & _ & _).
    destruct (Hvideo eq_refl eq_refl) as [_ Hauth].
    apply Hauth. exists "tok-alice", "alice". split; reflexivity.
  - destruct (invalid_payload_rejected
      (Fixture.env (Fixture.probe_ok 1920 1080) (Fixture.remux_ok "v1" [])) Fixture.cfg
      (Fixture.upload "v1" "tok-alice" "thumbnail" (mkFile 3 "image/gif" [Byte.x47]))
      (Fixture.st "v1")) as (_ & Hthumb & _).
    destruct (Hthumb eq_refl eq_refl) as [_ Hauth].
    apply Hauth. exists "tok-alice", "alice". split; reflexivity.
  - destruct (invalid_payload_rejected
      (Fixture.env (Fixture.probe_ok 1920 1080) (Fixture.remux_ok "v1" [])) Fixture.cfg
      (Fixture.bodyless "v1" "tok-alice") (Fixture.st "v1")) as (_ & _ & Hbody).
    destruct (Hbody eq_refl "v1" "tok-alice" "alice") as [_ Hthumb];
      [reflexivity | discriminate | reflexivity | reflexivity |].
    by rewrite Hthumb.
Defined.

(** C7: the classification [getVideoAspectRatio] returns for the first
    stream's width and height is [floor((width/height) * 100)] compared by
    equality with [floor((16/9)*100) = 177] and [floor((9/16)*100) = 56],
    everything else being "other"; 1920x1080 is "landscape", 1080x1920 is
    "portrait" and 1000x1000 is "other". *)
Theorem aspect_classification_correct :
  (forall env filePath st s rest,
     exited (run_process env (ffprobe_cmd filePath) (fs st)) = 0 ->
     stdout (run_process env (ffprobe_cmd filePath) (fs st))
       = Some (mkProbeDoc (Some (s :: rest))) ->
     (getVideoAspectRatio env filePath st).1 =
       Returned (aspect_classification (JS.ToNumber (width s)) (JS.ToNumber (height s)))) /\
  JS.Math_floor (PrimFloat.mul (PrimFloat.div (JS.num 16) (JS.num 9)) (JS.num 100)) = JS.num 177 /\
  JS.Math_floor (PrimFloat.mul (PrimFloat.div (JS.num 9) (JS.num 16)) (JS.num 100)) = JS.num 56 /\
  (forall w h,
     aspect_classification w h =
       let ratio := JS.Math_floor (PrimFloat.mul (PrimFloat.div w h) (JS.num 100)) in
       if JS.strict_eq ratio (JS.num 177) then "landscape"
       else if JS.strict_eq ratio (JS.num 56) then "portrait"
       else "other") /\
  aspect_classification (JS.num 1920) (JS.num 1080) = "landscape" /\
  aspect_classification (JS.num 1080) (JS.num 1920) = "portrait" /\
  aspect_classification (JS.num 1000) (JS.num 1000) = "other".
Proof.
  assert (JS.Math_floor (PrimFloat.mul (PrimFloat.div (JS.num 16) (JS.num 9)) (JS.num 100))
          = JS.num 177) as H177 by (vm_compute; reflexivity).
  assert (JS.Math_floor (PrimFloat.mul (PrimFloat.div (JS.num 9) (JS.num 16)) (JS.num 100))
          = JS.num 56) as H56 by (vm_compute; reflexivity).
  split; [| split; [exact H177 | split; [exact H56 | split]]].
  - intros env filePath st s rest Hexit Hout.
    rewrite getVideoAspectRatio_run. cbn [fst].
    unfold probe_outcome. rewrite Hexit, Hout. reflexivity.
  - intros w h. unfold aspect_classification. rewrite H177, H56. reflexivity.
  - repeat split; vm_compute; reflexivity.
Qed.

(** The arithmetic is that of binary64 numbers: [57/100*100] evaluates to
    56.99999999999999, so a 57x100 stream has ratio 56. *)
Remark aspect_classification_binary64 :
  JS.Math_floor (PrimFloat.mul (PrimFloat.div (JS.num 57) (JS.num 100)) (JS.num 100)) = JS.num 56 /\
  aspect_classification (JS.num 57) (JS.num 100) = "portrait".
Proof. split; vm_compute; reflexivity. Qed.

Lemma aspect_classification_correct_witness :
  (Run.probe (Fixture.probe_ok 1920 1080)).1 = Returned "landscape".
Proof.
  destruct aspect_classification_correct as (Hrun & _ & _ & _ & Hlandscape & _).
  etransitivity; [| exact (f_equal Returned Hlandscape)].
  apply (Hrun _ _ _ (mkStream (Some (JS.num 1920)) (Some (JS.num 1080))) []).
  - vm_compute. reflexivity.
  - vm_compute. reflexivity.
Defined.

(** C8 as stated fails: output that is not JSON ends in the parser's
    [SyntaxError] and a document without streams in a [TypeError], neither
    of which carries ffprobe's diagnostic output; a stream without
    dimensions does not fail at all. *)
Lemma probe_failures_carry_diagnostics_fails :
  (probe_failed Run.probe_malformed = true /\
   (Run.probe Run.probe_malformed).1 = Thrown SyntaxError) /\
  (probe_failed Run.probe_no_stream = true /\
   (Run.probe Run.probe_no_stream).1 = Thrown TypeError) /\
  (probe_failed Run.probe_no_dims = true /\
   (Run.probe Run.probe_no_dims).1 = Returned "other") /\
  ~ probe_failures_carry_diagnostics.
Proof.
  repeat split; try (vm_compute; reflexivity).
  intros Hclaim.
  specialize (Hclaim (Fixture.env Run.probe_malformed (Fixture.remux_ok "v1" [Byte.x01]))
                (scratch_path "v1") (Fixture.st "v1") eq_refl).
  vm_compute in Hclaim. discriminate Hclaim.
Qed.

(** C8 (amended): the probe runs ffprobe once.  A non-zero exit fails with
    an error carrying the process's diagnostic output; output that is not
    JSON fails with the parser's [SyntaxError] and an absent or empty
    stream list with a [TypeError], neither carrying the diagnostic
    output.  Whatever the probe throws ends the upload with that same
    exception, the probe being the last thing the handler did: there is no
    second attempt, and no bucket or record write. *)
Theorem probe_contract (env : Env) :
  (forall filePath st,
     getVideoAspectRatio env filePath st =
       (probe_outcome (run_process env (ffprobe_cmd filePath) (fs st)),
        mkState (db st) (videoThumbnails st)
          (fs_after (run_process env (ffprobe_cmd filePath) (fs st)) (fs st))
          (s3 st) (heap st) (EvSpawn (ffprobe_cmd filePath) :: trace st))) /\
  (forall proc,
     (exited proc <> 0 -> probe_outcome proc = Thrown (Error (stderr proc))) /\
     (exited proc = 0 -> stdout proc = None -> probe_outcome proc = Thrown SyntaxError) /\
     (exited proc = 0 ->
      forall doc, stdout proc = Some doc -> streams doc = None \/ streams doc = Some [] ->
      probe_outcome proc = Thrown TypeError)) /\
  (forall cfg req st videoId f row e,
     accepted env cfg req st = Some (videoId, f, row) ->
     probe_outcome (probe_of env videoId f st) = Thrown e ->
     handlerUploadVideo env cfg req st =
       (Thrown e,
        mkState (db st) (videoThumbnails st) (fs_probed env videoId f st) (s3 st)
          (app (heap st) [row])
          (app [EvSpawn (ffprobe_cmd (scratch_path videoId));
                EvFileWrite (scratch_path videoId); EvGetVideo videoId;
                EvConsoleLog ["uploading video"; videoId; "by user"; userID row]]
               (trace st)))).
Proof.
  split; [apply getVideoAspectRatio_run | split].
  - intros proc. unfold probe_outcome. repeat split.
    + intros Hexit. apply Z.eqb_neq in Hexit. by rewrite Hexit.
    + intros Hexit Hout. by rewrite Hexit, Hout.
    + intros Hexit doc Hout [Hs|Hs]; by rewrite Hexit, Hout, Hs.
  - intros cfg req st videoId f row e. apply handlerUploadVideo_probe_fails.
Qed.

Lemma probe_contract_witness :
  Run.video_probe_fails.1 = Thrown (Error "moov atom not found") /\
  length (filter (fun ev => is_ffprobe ev = true) (trace Run.video_probe_fails.2)) = 1%nat.
Proof.
  pose proof (probe_contract
    (Fixture.env (mkProc 1 None "moov atom not found" []) (Fixture.remux_ok "v1" [Byte.x01])))
    as (_ & Hcases & Hfatal).
  specialize (Hfatal Fixture.cfg (Fixture.upload "v1" "tok-alice" "video" Fixture.mp4)
                (Fixture.st "v1") "v1" Fixture.mp4 (Fixture.row "v1")
                (Error "moov atom not found")).
  unfold Run.video_probe_fails. rewrite Hfatal.
  - split; reflexivity.
  - vm_compute. reflexivity.
  - destruct (Hcases (mkProc 1 None "moov atom not found" [])) as [Hexit _].
    apply Hexit. discriminate.
Defined.

(** The classifications a probe can return. *)
Lemma probe_outcome_returned (proc : ProcResult) (c : string) :
  probe_outcome proc = Returned c ->
  c = "landscape" \/ c = "portrait" \/ c = "other".
Proof.
  unfold probe_outcome, aspect_classification.
  destruct (negb (exited proc =? 0)); [discriminate |].
  destruct (stdout proc) as [doc|]; [| discriminate].
  destruct (streams doc) as [[|s rest]|]; try discriminate.
  intros [= <-].
  destruct (JS.strict_eq _ _); [auto |].
  destruct (JS.strict_eq _ _); auto.
Qed.

(** C9: the storage key is [{classification}/{videoId}.mp4], a function of
    the classification and the video identifier alone:
    ("portrait", "abc") gives "portrait/abc.mp4"; and a successful upload
    has written its object under the key so derived from the probe's
    classification and the request's video identifier, the only bucket
    write of the request. *)
Theorem storage_key_derivation :
  storage_key "portrait" "abc" = "portrait/abc.mp4" /\
  forall env cfg req st resp st',
    handlerUploadVideo env cfg req st = (Returned resp, st') ->
    exists videoId f row c body l,
      accepted env cfg req st = Some (videoId, f, row) /\
      probe_outcome (probe_of env videoId f st) = Returned c /\
      (c = "landscape" \/ c = "portrait" \/ c = "other") /\
      s3 st' = <[(s3Bucket cfg, storage_key c videoId) := mkS3Object body "video/mp4"]> (s3 st) /\
      new_events st st' l /\
      filter (fun ev => is_s3_write ev = true) l = [EvS3Write (s3Bucket cfg) (storage_key c videoId)].
Proof.
  split; [reflexivity |].
  intros env cfg req st resp st' H.
  destruct (handlerUploadVideo_returned _ _ _ _ _ _ H)
    as (videoId & f & row & c & body & Hacc & Hprobe & Hexit & Hbody & Hok & Hresp & ->).
  exists videoId, f, row, c, body. eexists.
  split; [exact Hacc |]. split; [exact Hprobe |].
  split; [exact (probe_outcome_returned _ _ Hprobe) |].
  split; [reflexivity |].
  split; [unfold new_events; cbn [trace]; reflexivity |].
  reflexivity.
Qed.

Lemma storage_key_derivation_witness :
  exists body,
    s3 Run.video_portrait.2 = <[("tubely", "portrait/abc.mp4") := mkS3Object body "video/mp4"]> ∅.
Proof.
  assert (exists resp st', Run.video_portrait = (Returned resp, st')) as (resp & st' & Hrun)
    by (eexists _, _; vm_compute; reflexivity).
  destruct storage_key_derivation as [_ Hkey].
  destruct (Hkey _ _ _ _ resp st' Hrun)
    as (videoId & f & row & c & body & l & Hacc & Hprobe & _ & Hs3 & _).
  vm_compute in Hacc. injection Hacc as <- <- <-.
  vm_compute in Hprobe. injection Hprobe as <-.
  exists body. rewrite Hrun. exact Hs3.
Defined.

(** * Further properties of the handlers *)

(** ** Refusals *)

(** X1: an upload without a usable video identifier is refused as a bad
    request, and one whose token is missing or not valid is refused as
    unauthenticated; in both cases nothing at all has happened: the state,
    trace included, is the one before. *)
Theorem upload_needs_id_and_token (env : Env) (cfg : ApiConfig) (req : BunRequest) (st : State) :
  (params_videoId req = None \/ params_videoId req = Some "" ->
   handlerUploadVideo env cfg req st = (Thrown (BadRequestError "Invalid video ID"), st) /\
   handlerUploadThumbnail env cfg req st = (Thrown (BadRequestError "Invalid video ID"), st)) /\
  (forall videoId,
     params_videoId req = Some videoId -> videoId <> "" ->
     (forall token, authorization req = Some token ->
                    jwt_subject env token (jwtSecret cfg) = None) ->
     exists msg,
       handlerUploadVideo env cfg req st = (Thrown (UserNotAuthenticatedError msg), st) /\
       handlerUploadThumbnail env cfg req st = (Thrown (UserNotAuthenticatedError msg), st)).
Proof.
  split.
  - intros [Hid|Hid]; unfold handlerUploadVideo, handlerUploadThumbnail; rewrite Hid;
      split; reflexivity.
  - intros videoId Hid Hne Htoken.
    unfold handlerUploadVideo, handlerUploadThumbnail. rewrite Hid.
    apply String.eqb_neq in Hne. unfold JS.truthy. rewrite Hne. cbn [negb].
    destruct (authorization req) as [token|] eqn:Hauth.
    + specialize (Htoken token eq_refl). norm. rewrite Htoken.
      eexists. split; reflexivity.
    + norm. eexists. split; reflexivity.
Qed.

Lemma upload_needs_id_and_token_witness :
  exists msg,
    handlerUploadVideo Scenario.env_ok Fixture.cfg (Scenario.video_req "tok-mallory")
      (Fixture.st "v1")
    = (Thrown (UserNotAuthenticatedError msg), Fixture.st "v1").
Proof.
  destruct (upload_needs_id_and_token Scenario.env_ok Fixture.cfg
              (Scenario.video_req "tok-mallory") (Fixture.st "v1")) as [_ Htoken].
  destruct (Htoken "v1") as (msg & Hvideo & _).
  - reflexivity.
  - discriminate.
  - intros token [= <-]. reflexivity.
  - exists msg. exact Hvideo.
Defined.

(** X2: whenever a video upload is refused (bad request, unauthenticated,
    not found, forbidden), it has written nothing: the record store, the
    registry, the file system and the bucket are as before, no process was
    started, and the only events are the console line and the record
    lookup. *)
Theorem handlerUploadVideo_refusal_writes_nothing (env : Env) (cfg : ApiConfig)
    (req : BunRequest) (st : State) (e : Exn) (st' : State) :
  handlerUploadVideo env cfg req st = (Thrown e, st') ->
  refusal e = true ->
  stores_unchanged st st' /\
  exists l, new_events st st' l /\ forallb is_lookup l = true.
Proof.
  intros H Hrefusal.
  destruct st as [d t f0 s h tr]. unfold handlerUploadVideo in H.
  exec_in H; injection H as He Hst; subst; unfold remux_error in *; try discriminate;
    try match goal with
      | E : probe_outcome _ = Thrown _ |- _ =>
          apply probe_outcome_thrown in E; destruct E as [E|[E|E]]; subst; discriminate
      end;
    (split; [repeat split |]); unfold new_events; cbn [trace];
    first [ by exists [] | by eexists [_] | by eexists [_; _] ].
Qed.

Lemma handlerUploadVideo_refusal_writes_nothing_witness :
  exists st',
    handlerUploadVideo Scenario.env_ok Fixture.cfg (Scenario.video_req "tok-bob") (Fixture.st "v1")
    = (Thrown (UserForbiddenError "Not authorized to update this video"), st') /\
    stores_unchanged (Fixture.st "v1") st'.
Proof.
  assert (exists st',
            handlerUploadVideo Scenario.env_ok Fixture.cfg (Scenario.video_req "tok-bob")
              (Fixture.st "v1")
            = (Thrown (UserForbiddenError "Not authorized to update this video"), st'))
    as [st' Hrun] by (eexists; vm_compute; reflexivity).
  exists st'. split; [exact Hrun |].
  apply (handlerUploadVideo_refusal_writes_nothing _ _ _ _ _ _ Hrun eq_refl).
Defined.

(** Turn [validated_... = Some _] into the equations of its tests. *)
Ltac validated_eqs H :=
  unfold validated_video, validated_thumbnail in H; exec_in H; injection H as <- <- <-.

(** X3: a video upload that has passed validation looks the record up
    before it writes anything: without a record it ends in the not-found
    error, with a record of another user in the forbidden error, and only
    with a record of the requester does it go on to the pipeline. *)
Theorem handlerUploadVideo_record_checks (env : Env) (cfg : ApiConfig) (req : BunRequest)
    (st : State) (videoId user : string) (f : File) :
  validated_video env cfg req = Some (videoId, user, f) ->
  (db st !! videoId = None ->
   handlerUploadVideo env cfg req st =
     (Thrown (NotFoundError "Couldn't find video"),
      mkState (db st) (videoThumbnails st) (fs st) (s3 st) (heap st)
        (app [EvGetVideo videoId; EvConsoleLog ["uploading video"; videoId; "by user"; user]]
             (trace st)))) /\
  (forall row,
     db st !! videoId = Some row -> userID row <> user ->
     handlerUploadVideo env cfg req st =
       (Thrown (UserForbiddenError "Not authorized to update this video"),
        mkState (db st) (videoThumbnails st) (fs st) (s3 st) (app (heap st) [row])
          (app [EvGetVideo videoId; EvConsoleLog ["uploading video"; videoId; "by user"; user]]
               (trace st)))) /\
  (forall row,
     db st !! videoId = Some row -> userID row = user ->
     accepted env cfg req st = Some (videoId, f, row)).
Proof.
  intros Hval. destruct st as [d t f0 s h tr]. cbn [db videoThumbnails fs s3 heap trace].
  validated_eqs Hval. split; [| split].
  - intros Hrow. unfold handlerUploadVideo. run_with_eqs. reflexivity.
  - intros row Hrow Hne. apply String.eqb_neq in Hne.
    unfold handlerUploadVideo. run_with_eqs. reflexivity.
  - intros row Hrow Heq. apply String.eqb_eq in Heq.
    unfold accepted. cbn [db]. use_eqs. cbn [negb]. reflexivity.
Qed.

Lemma handlerUploadVideo_record_checks_witness :
  (handlerUploadVideo Scenario.env_ok Fixture.cfg (Scenario.video_req "tok-alice")
     (Fixture.st "v2")).1
  = Thrown (NotFoundError "Couldn't find video").
Proof.
  destruct (handlerUploadVideo_record_checks Scenario.env_ok Fixture.cfg
              (Scenario.video_req "tok-alice") (Fixture.st "v2") "v1" "alice" Fixture.mp4)
    as (Hmissing & _ & _).
  - vm_compute. reflexivity.
  - rewrite Hmissing; [reflexivity |]. vm_compute. reflexivity.
Defined.

(** X4: a thumbnail upload that has passed validation writes the payload
    to the assets directory first and looks the record up afterwards.  The
    file is therefore on disk in all three outcomes: not found (no
    record), forbidden (record of another user), and success, where the
    record goes back to the store with the new thumbnail URL and nothing
    else changed, and is returned with status 200. *)
Theorem handlerUploadThumbnail_after_validation (env : Env) (cfg : ApiConfig)
    (req : BunRequest) (st : State) (videoId user : string) (f : File) :
  validated_thumbnail env cfg req = Some (videoId, user, f) ->
  let written := <[thumbnail_path env cfg f := content f]> (fs st) in
  let log := [EvFileWrite (thumbnail_path env cfg f);
              EvConsoleLog ["uploading thumbnail for video"; videoId; "by user"; user]] in
  (db st !! videoId = None ->
   handlerUploadThumbnail env cfg req st =
     (Thrown (NotFoundError "Couldn't find video"),
      mkState (db st) (videoThumbnails st) written (s3 st) (heap st)
        (EvGetVideo videoId :: app log (trace st)))) /\
  (forall row,
     db st !! videoId = Some row -> userID row <> user ->
     handlerUploadThumbnail env cfg req st =
       (Thrown (UserForbiddenError "Not authorized to update this video"),
        mkState (db st) (videoThumbnails st) written (s3 st) (app (heap st) [row])
          (EvGetVideo videoId :: app log (trace st)))) /\
  (forall row,
     db st !! videoId = Some row -> userID row = user ->
     let updated := with_thumbnailURL row (thumbnail_url env cfg f) in
     handlerUploadThumbnail env cfg req st =
       (Returned (JSONResponse 200 updated),
        mkState (<[id row := updated]> (db st)) (videoThumbnails st) written (s3 st)
          (app (heap st) [updated])
          (EvUpdateVideo updated :: EvGetVideo videoId :: app log (trace st)))).
Proof.
  intros Hval written log. subst written log.
  destruct st as [d t f0 s h tr]. cbn [db videoThumbnails fs s3 heap trace app].
  validated_eqs Hval. split; [| split].
  - intros Hrow. unfold handlerUploadThumbnail. run_with_eqs. reflexivity.
  - intros row Hrow Hne. apply String.eqb_neq in Hne.
    unfold handlerUploadThumbnail. run_with_eqs. reflexivity.
  - intros row Hrow Heq. apply String.eqb_eq in Heq.
    unfold handlerUploadThumbnail. run_with_eqs. reflexivity.
Qed.

Lemma handlerUploadThumbnail_after_validation_witness :
  fs (handlerUploadThumbnail Scenario.env_ok Fixture.cfg (Scenario.thumbnail_req "v2" "tok-alice")
        (Fixture.st "v1")).2
  = <["assets/r4nd0m.png" := content Fixture.png]> ∅.
Proof.
  destruct (handlerUploadThumbnail_after_validation Scenario.env_ok Fixture.cfg
              (Scenario.thumbnail_req "v2" "tok-alice") (Fixture.st "v1")
              "v2" "alice" Fixture.png)
    as (Hmissing & _ & _).
  - vm_compute. reflexivity.
  - rewrite Hmissing; [| vm_compute; reflexivity].
    cbn [snd fs]. vm_compute. reflexivity.
Defined.

(** ** The video pipeline *)

Lemma handlerUploadVideo_completes (env : Env) (cfg : ApiConfig) (req : BunRequest)
    (st : State) (videoId : string) (f : File) (row : Video) (c : string) (body : bytes) :
  accepted env cfg req st = Some (videoId, f, row) ->
  probe_outcome (probe_of env videoId f st) = Returned c ->
  exited (remux_of env videoId f st) = 0 ->
  fs_remuxed env videoId f st !! processed_path videoId = Some body ->
  s3_write_failure env (s3Bucket cfg) (storage_key c videoId) = None ->
  handlerUploadVideo env cfg req st =
    (Returned (JSONResponse 200
                 (with_videoURL row (s3_presign env (Some (storage_key c videoId)) 360))),
     mkState
       (<[id row := with_videoURL row (s3_presign env (Some (storage_key c videoId)) 360)]>
          (db st))
       (videoThumbnails st)
       (delete (scratch_path videoId) (fs_remuxed env videoId f st))
       (<[(s3Bucket cfg, storage_key c videoId) := mkS3Object body "video/mp4"]> (s3 st))
       (app (heap st) [with_videoURL row (s3_presign env (Some (storage_key c videoId)) 360)])
       (app [EvFileRm (scratch_path videoId);
             EvUpdateVideo
               (with_videoURL row (s3_presign env (Some (storage_key c videoId)) 360));
             EvPresign (Some (storage_key c videoId)) 360;
             EvS3Write (s3Bucket cfg) (storage_key c videoId);
             EvFileExists (processed_path videoId);
             EvSpawn (ffmpeg_cmd (scratch_path videoId));
             EvSpawn (ffprobe_cmd (scratch_path videoId));
             EvFileWrite (scratch_path videoId); EvGetVideo videoId;
             EvConsoleLog ["uploading video"; videoId; "by user"; userID row]]
            (trace st))).
Proof.
  intros Hacc Hprobe Hexit Hbody Hok.
  apply Z.eqb_eq in Hexit. destruct st as [d t f0 s h tr].
  accepted_eqs Hacc. unfold handlerUploadVideo, with_videoURL. run_with_eqs.
  reflexivity.
Qed.

(** X5: a video upload succeeds exactly when the request is accepted, the
    probe returns a classification, ffmpeg exits with 0, the remuxed file
    exists and the bucket takes the write.  It has then, in this order,
    written the scratch file, run ffprobe and ffmpeg, checked the output,
    written the object under [{classification}/{videoId}.mp4], signed that
    key for 360 seconds, stored the record and removed the scratch file;
    the response is the stored record with status 200. *)
Theorem handlerUploadVideo_succeeds_iff (env : Env) (cfg : ApiConfig) (req : BunRequest)
    (st : State) (resp : Response) (st' : State) :
  handlerUploadVideo env cfg req st = (Returned resp, st') <->
  exists videoId f row c body,
    accepted env cfg req st = Some (videoId, f, row) /\
    probe_outcome (probe_of env videoId f st) = Returned c /\
    exited (remux_of env videoId f st) = 0 /\
    fs_remuxed env videoId f st !! processed_path videoId = Some body /\
    s3_write_failure env (s3Bucket cfg) (storage_key c videoId) = None /\
    resp = JSONResponse 200
             (with_videoURL row (s3_presign env (Some (storage_key c videoId)) 360)) /\
    st' = mkState
            (<[id row := with_videoURL row (s3_presign env (Some (storage_key c videoId)) 360)]>
               (db st))
            (videoThumbnails st)
            (delete (scratch_path videoId) (fs_remuxed env videoId f st))
            (<[(s3Bucket cfg, storage_key c videoId) := mkS3Object body "video/mp4"]> (s3 st))
            (app (heap st)
               [with_videoURL row (s3_presign env (Some (storage_key c videoId)) 360)])
            (app [EvFileRm (scratch_path videoId);
                  EvUpdateVideo
                    (with_videoURL row (s3_presign env (Some (storage_key c videoId)) 360));
                  EvPresign (Some (storage_key c videoId)) 360;
                  EvS3Write (s3Bucket cfg) (storage_key c videoId);
                  EvFileExists (processed_path videoId);
                  EvSpawn (ffmpeg_cmd (scratch_path videoId));
                  EvSpawn (ffprobe_cmd (scratch_path videoId));
                  EvFileWrite (scratch_path videoId); EvGetVideo videoId;
                  EvConsoleLog ["uploading video"; videoId; "by user"; userID row]]
                 (trace st)).
Proof.
  split.
  - intros H.
    destruct (handlerUploadVideo_returned _ _ _ _ _ _ H)
      as (videoId & f & row & c & body & Hacc & Hprobe & Hexit & Hbody & Hok & Hresp & Hst).
    exists videoId, f, row, c, body. repeat split; assumption.
  - intros (videoId & f & row & c & body & Hacc & Hprobe & Hexit & Hbody & Hok & -> & ->).
    by apply handlerUploadVideo_completes.
Qed.

Lemma handlerUploadVideo_succeeds_iff_witness :
  exists resp st', Run.video_ok = (Returned resp, st').
Proof.
  eexists _, _.
  apply (handlerUploadVideo_succeeds_iff
           (Fixture.env (Fixture.probe_ok 1920 1080) (Fixture.remux_ok "v1" [Byte.x01]))
           Fixture.cfg (Fixture.upload "v1" "tok-alice" "video" Fixture.mp4) (Fixture.st "v1")).
  exists "v1", Fixture.mp4, (Fixture.row "v1"), "landscape", [Byte.x01].
  repeat split; vm_compute; reflexivity.
Defined.

(** X6: when the bucket refuses the write, the upload fails with the
    store's error right there: nothing is signed, the record store is not
    touched, and the handler removes neither of its two files. *)
Theorem handlerUploadVideo_bucket_refuses (env : Env) (cfg : ApiConfig) (req : BunRequest)
    (st : State) (videoId : string) (f : File) (row : Video) (c : string)
    (body : bytes) (msg : string) :
  accepted env cfg req st = Some (videoId, f, row) ->
  probe_outcome (probe_of env videoId f st) = Returned c ->
  exited (remux_of env videoId f st) = 0 ->
  fs_remuxed env videoId f st !! processed_path videoId = Some body ->
  s3_write_failure env (s3Bucket cfg) (storage_key c videoId) = Some msg ->
  (handlerUploadVideo env cfg req st).1 = Thrown (StoreError msg) /\
  db (handlerUploadVideo env cfg req st).2 = db st /\
  s3 (handlerUploadVideo env cfg req st).2 = s3 st /\
  fs (handlerUploadVideo env cfg req st).2 = fs_remuxed env videoId f st /\
  new_events st (handlerUploadVideo env cfg req st).2
    [EvS3Write (s3Bucket cfg) (storage_key c videoId);
     EvFileExists (processed_path videoId);
     EvSpawn (ffmpeg_cmd (scratch_path videoId));
     EvSpawn (ffprobe_cmd (scratch_path videoId));
     EvFileWrite (scratch_path videoId); EvGetVideo videoId;
     EvConsoleLog ["uploading video"; videoId; "by user"; userID row]].
Proof.
  intros Hacc Hprobe Hexit Hbody Hfail.
  rewrite (handlerUploadVideo_store_fails _ _ _ _ _ _ _ _ _ _ Hacc Hprobe Hexit Hbody Hfail).
  repeat split.
Qed.

Lemma handlerUploadVideo_bucket_refuses_witness :
  (handlerUploadVideo Scenario.env_store_fails Fixture.cfg (Scenario.video_req "tok-alice")
     (Fixture.st "v1")).1
  = Thrown (StoreError "AccessDenied").
Proof.
  apply (handlerUploadVideo_bucket_refuses Scenario.env_store_fails Fixture.cfg
           (Scenario.video_req "tok-alice") (Fixture.st "v1")
           "v1" Fixture.mp4 (Fixture.row "v1") "landscape" [Byte.x01] "AccessDenied");
    vm_compute; reflexivity.
Defined.

(** ** What the handlers never touch *)

Lemma fs_after_keeps (proc : ProcResult) (files : gmap string bytes) (path : string) :
  is_Some (files !! path) -> is_Some (fs_after proc files !! path).
Proof.
  unfold fs_after. revert files.
  induction (written proc) as [|[p b] ws IH]; intros files Hsome; cbn [foldl].
  - exact Hsome.
  - apply IH. cbn [fst snd].
    destruct (decide (p = path)) as [->|Hne].
    + rewrite lookup_insert_eq. by eexists.
    + by rewrite lookup_insert_ne.
Qed.

Lemma insert_keeps (files : gmap string bytes) (p path : string) (b : bytes) :
  is_Some (files !! path) -> is_Some (<[p := b]> files !! path).
Proof.
  intros Hsome. destruct (decide (p = path)) as [->|Hne].
  - rewrite lookup_insert_eq. by eexists.
  - by rewrite lookup_insert_ne.
Qed.

(** X7: no handler ever removes or replaces an object of another bucket or
    key: the thumbnail handlers leave the bucket alone, and a video upload,
    whatever its outcome, either leaves it alone or has put one object of
    type video/mp4 into the configured bucket. *)
Theorem bucket_only_grows (env : Env) (cfg : ApiConfig) (req : BunRequest) (st : State) :
  s3 (handlerGetThumbnail cfg req st).2 = s3 st /\
  s3 (handlerUploadThumbnail env cfg req st).2 = s3 st /\
  (s3 (handlerUploadVideo env cfg req st).2 = s3 st \/
   exists key body,
     s3 (handlerUploadVideo env cfg req st).2 =
       <[(s3Bucket cfg, key) := mkS3Object body "video/mp4"]> (s3 st)).
Proof.
  split; [apply handlerGetThumbnail_stores | split].
  - destruct (handlerUploadThumbnail env cfg req st) as [o st'] eqn:H. cbn [snd].
    destruct st as [d t f0 s h tr]. unfold handlerUploadThumbnail in H.
    exec_in H; injection H as <- <-; reflexivity.
  - destruct (handlerUploadVideo env cfg req st) as [o st'] eqn:H. cbn [snd].
    destruct st as [d t f0 s h tr]. unfold handlerUploadVideo in H.
    exec_in H; injection H as <- <-; simpl; first [ by left | right; by eexists _, _ ].
Qed.

(** X8: uploads do not delete files.  A thumbnail upload leaves the file
    system as it was or with one file written; a video upload, whatever its
    outcome and whatever the child processes wrote, leaves every file in
    place except the scratch file [/tmp/<videoId>.mp4]. *)
Theorem uploads_keep_files (env : Env) (cfg : ApiConfig) (req : BunRequest) (st : State) :
  (fs (handlerUploadThumbnail env cfg req st).2 = fs st \/
   exists path b, fs (handlerUploadThumbnail env cfg req st).2 = <[path := b]> (fs st)) /\
  (forall videoId path,
     params_videoId req = Some videoId -> path <> scratch_path videoId ->
     is_Some (fs st !! path) ->
     is_Some (fs (handlerUploadVideo env cfg req st).2 !! path)).
Proof.
  split.
  - destruct (handlerUploadThumbnail env cfg req st) as [o st'] eqn:H. cbn [snd].
    destruct st as [d t f0 s h tr]. unfold handlerUploadThumbnail in H.
    exec_in H; injection H as <- <-; cbn [fs]; first [ by left | right; by eexists _, _ ].
  - intros videoId path Hid Hne Hsome.
    destruct (handlerUploadVideo env cfg req st) as [o st'] eqn:H. cbn [snd].
    destruct st as [d t f0 s h tr]. unfold handlerUploadVideo in H.
    rewrite Hid in H. unfold scratch_path in Hne. cbn [fs] in Hsome.
    exec_in H; injection H as <- <-; cbn [fs];
      rewrite ?lookup_delete_ne by congruence;
      repeat first [ exact Hsome | apply fs_after_keeps | apply insert_keeps ].
Qed.

Lemma uploads_keep_files_witness :
  is_Some (fs (handlerUploadVideo Scenario.env_ok Fixture.cfg (Scenario.video_req "tok-alice")
                 (serve [UploadThumbnail Scenario.env_ok Fixture.cfg
                           (Scenario.thumbnail_req "v1" "tok-alice")]
                    (Fixture.st "v1"))).2
           !! "assets/r4nd0m.png").
Proof.
  destruct (uploads_keep_files Scenario.env_ok Fixture.cfg (Scenario.video_req "tok-alice")
              (serve [UploadThumbnail Scenario.env_ok Fixture.cfg
                        (Scenario.thumbnail_req "v1" "tok-alice")]
                 (Fixture.st "v1"))) as [_ Hkeep].
  apply (Hkeep "v1").
  - reflexivity.
  - vm_compute. discriminate.
  - eexists. vm_compute. reflexivity.
Defined.

(** ** Sequences of requests *)

(** What one call can do to the registry and to the record store: nothing
    to the former; to the latter nothing, or one stored row put back under
    its identifier with the same identifier and owner. *)
Lemma handle_frame (c : Call) (st : State) :
  videoThumbnails (handle c st).2 = videoThumbnails st /\
  (db (handle c st).2 = db st \/
   exists k row row',
     db st !! k = Some row /\ id row' = id row /\ userID row' = userID row /\
     db (handle c st).2 = <[id row := row']> (db st)).
Proof.
  destruct c as [cfg req|env cfg req|env cfg req]; cbn [handle].
  - destruct (handlerGetThumbnail_stores cfg req st) as (Hdb & Hreg & _). auto.
  - destruct (handlerUploadThumbnail env cfg req st) as [o st'] eqn:H. cbn [snd].
    destruct st as [d t f0 s h tr]. unfold handlerUploadThumbnail in H.
    exec_in H; injection H as <- <-; simpl; (split; [reflexivity |]);
      first [ by left
            | right; eexists _, _, _; split; [eassumption |];
              split; [| split; [| reflexivity]]; reflexivity ].
  - destruct (handlerUploadVideo env cfg req st) as [o st'] eqn:H. cbn [snd].
    destruct st as [d t f0 s h tr]. unfold handlerUploadVideo in H.
    exec_in H; injection H as <- <-; simpl; (split; [reflexivity |]);
      first [ by left
            | right; eexists _, _, _; split; [eassumption |];
              split; [| split; [| reflexivity]]; reflexivity ].
Qed.

Lemma get_on_empty_registry (cfg : ApiConfig) (req : BunRequest) (st : State) :
  videoThumbnails st = ∅ -> exists e, (handlerGetThumbnail cfg req st).1 = Thrown e.
Proof.
  intros Hempty. destruct st as [d t f s h tr]. cbn in Hempty. subst t.
  unfold handlerGetThumbnail.
  repeat exec_step; norm; rewrite ?lookup_empty; try (eexists; reflexivity).
  all: match goal with E : ∅ !! _ = Some _ |- _ => by rewrite lookup_empty in E end.
Qed.

(** X9: no sequence of requests changes the thumbnail registry.  On a
    server whose registry starts empty, thumbnail retrieval therefore
    fails for every request, whatever was uploaded before. *)
Theorem registry_is_never_written (calls : list Call) (st : State) :
  videoThumbnails (serve calls st) = videoThumbnails st /\
  (videoThumbnails st = ∅ ->
   forall cfg req, exists e, (handlerGetThumbnail cfg req (serve calls st)).1 = Thrown e).
Proof.
  assert (forall cs s0, videoThumbnails (serve cs s0) = videoThumbnails s0) as Hserve.
  { intros cs. induction cs as [|c cs IH]; intros s0; cbn [serve]; [reflexivity |].
    rewrite IH. apply handle_frame. }
  split; [apply Hserve |].
  intros Hempty cfg req. apply get_on_empty_registry. by rewrite Hserve.
Qed.

Lemma registry_is_never_written_witness :
  exists e,
    (handlerGetThumbnail Fixture.cfg (Fixture.fetch "v1")
       (serve [UploadThumbnail Scenario.env_ok Fixture.cfg (Scenario.thumbnail_req "v1" "tok-alice")]
          (Fixture.st "v1"))).1 = Thrown e.
Proof.
  apply (registry_is_never_written
           [UploadThumbnail Scenario.env_ok Fixture.cfg (Scenario.thumbnail_req "v1" "tok-alice")]
           (Fixture.st "v1")).
  reflexivity.
Defined.

(** X10: uploads never create or delete a record and never change a
    record's owner: in a record store where every row sits under its own
    identifier, that stays so after any sequence of requests, and every
    identifier has the owner it had before. *)
Theorem records_keep_their_owner (calls : list Call) (st : State) :
  well_keyed (db st) ->
  well_keyed (db (serve calls st)) /\
  forall k, userID <$> (db (serve calls st) !! k) = userID <$> (db st !! k).
Proof.
  revert st. induction calls as [|c calls IH]; intros st Hkeyed; cbn [serve].
  - split; [exact Hkeyed | reflexivity].
  - destruct (handle_frame c st) as [_ [Hdb|(k & row & row' & Hrow & Hid & Howner & Hdb)]].
    + destruct (IH (handle c st).2) as [Hk Ho]; [by rewrite Hdb |].
      split; [exact Hk |]. intros k. by rewrite Ho, Hdb.
    + pose proof (Hkeyed k row Hrow) as Hk.
      assert (well_keyed (db (handle c st).2)) as Hkeyed'.
      { rewrite Hdb. intros k' r Hr.
        destruct (decide (id row = k')) as [<-|Hne].
        - rewrite lookup_insert_eq in Hr. by injection Hr as <-.
        - rewrite lookup_insert_ne in Hr by exact Hne. by apply Hkeyed. }
      destruct (IH (handle c st).2 Hkeyed') as [Hk' Ho].
      split; [exact Hk' |]. intros k'. rewrite Ho, Hdb.
      destruct (decide (id row = k')) as [<-|Hne].
      * rewrite lookup_insert_eq, Hk, Hrow. cbn. by rewrite Howner.
      * by rewrite lookup_insert_ne.
Qed.

Lemma records_keep_their_owner_witness :
  userID <$> (db (serve [UploadVideo Scenario.env_ok Fixture.cfg (Scenario.video_req "tok-alice");
                         UploadThumbnail Scenario.env_ok Fixture.cfg
                           (Scenario.thumbnail_req "v1" "tok-bob")]
                    (Fixture.st "v1")) !! "v1")
  = Some "alice".
Proof.
  destruct (records_keep_their_owner
              [UploadVideo Scenario.env_ok Fixture.cfg (Scenario.video_req "tok-alice");
               UploadThumbnail Scenario.env_ok Fixture.cfg (Scenario.thumbnail_req "v1" "tok-bob")]
              (Fixture.st "v1")) as [_ Howner].
  - intros k row Hrow. cbn [Fixture.st db] in Hrow.
    apply lookup_singleton_Some in Hrow as [<- <-]. reflexivity.
  - rewrite Howner. vm_compute. reflexivity.
Defined.

(** ** The scratch file *)

Lemma scratch_survives (env : Env) (videoId : string) (f : File) (st : State) :
  is_Some (fs_probed env videoId f st !! scratch_path videoId) /\
  is_Some (fs_remuxed env videoId f st !! scratch_path videoId).
Proof.
  assert (is_Some (fs_probed env videoId f st !! scratch_path videoId)) as Hprobed.
  { unfold fs_probed. apply fs_after_keeps. unfold fs_scratch.
    rewrite lookup_insert_eq. by eexists. }
  split; [exact Hprobed |].
  unfold fs_remuxed. by apply fs_after_keeps.
Qed.

(** X11: once a video upload is accepted, a file sits at the scratch path
    at the end of every failed run (probe, remux, missing output or bucket
    failure), and none sits there at the end of a successful one. *)
Theorem scratch_file_is_removed_only_on_success (env : Env) (cfg : ApiConfig)
    (req : BunRequest) (st : State) (videoId : string) (f : File) (row : Video) :
  accepted env cfg req st = Some (videoId, f, row) ->
  match (handlerUploadVideo env cfg req st).1 with
  | Returned _ => fs (handlerUploadVideo env cfg req st).2 !! scratch_path videoId = None
  | Thrown _ => is_Some (fs (handlerUploadVideo env cfg req st).2 !! scratch_path videoId)
  end.
Proof.
  intros Hacc.
  destruct (scratch_survives env videoId f st) as [Hprobed Hremuxed].
  destruct (probe_outcome (probe_of env videoId f st)) as [c|e] eqn:Hprobe.
  2: { by rewrite (handlerUploadVideo_probe_fails _ _ _ _ _ _ _ _ Hacc Hprobe). }
  destruct (Z.eq_dec (exited (remux_of env videoId f st)) 0) as [Hexit|Hexit].
  2: { by rewrite (handlerUploadVideo_remux_fails _ _ _ _ _ _ _ _ Hacc Hprobe Hexit). }
  destruct (fs_remuxed env videoId f st !! processed_path videoId) as [body|] eqn:Hbody.
  2: { by rewrite (handlerUploadVideo_output_missing _ _ _ _ _ _ _ _ Hacc Hprobe Hexit Hbody). }
  destruct (s3_write_failure env (s3Bucket cfg) (storage_key c videoId)) as [msg|] eqn:Hs3.
  - by rewrite (handlerUploadVideo_store_fails _ _ _ _ _ _ _ _ _ _ Hacc Hprobe Hexit Hbody Hs3).
  - rewrite (handlerUploadVideo_completes _ _ _ _ _ _ _ _ _ Hacc Hprobe Hexit Hbody Hs3).
    cbn [fst snd fs]. apply lookup_delete_eq.
Qed.

Lemma scratch_file_is_removed_only_on_success_witness :
  is_Some (fs (handlerUploadVideo Scenario.env_store_fails Fixture.cfg
                 (Scenario.video_req "tok-alice") (Fixture.st "v1")).2
           !! scratch_path "v1").
Proof.
  pose proof (scratch_file_is_removed_only_on_success Scenario.env_store_fails Fixture.cfg
                (Scenario.video_req "tok-alice") (Fixture.st "v1")
                "v1" Fixture.mp4 (Fixture.row "v1")) as H.
  assert (exists e st',
            handlerUploadVideo Scenario.env_store_fails Fixture.cfg
              (Scenario.video_req "tok-alice") (Fixture.st "v1") = (Thrown e, st'))
    as (e & st' & Hrun) by (eexists _, _; vm_compute; reflexivity).
  rewrite Hrun in *. apply H. vm_compute. reflexivity.
Defined.

(** ** Signing *)

(** X12: [dbVideoToSignedVideo] works in place.  On an object with a video
    location it returns the very object it was given, with the location
    replaced by the URL presigned for 360 seconds from the old one and the
    other fields as they were; it touches no store and no other object,
    and it is not idempotent: called on its own result it presigns the
    signed URL.  On an object without a video location the presign call
    throws a [TypeError]: nothing is assigned and nothing else happens. *)
Theorem dbVideoToSignedVideo_in_place (env : Env) (cfg : ApiConfig) (video : VideoRef)
    (st : State) (v : Video) :
  heap st !! video = Some v ->
  (videoURL v = None ->
   dbVideoToSignedVideo env cfg video st = (Thrown TypeError, st)) /\
  (forall key,
     videoURL v = Some key ->
     let url := s3_presign env (Some key) 360 in
     dbVideoToSignedVideo env cfg video st =
       (Returned video,
        mkState (db st) (videoThumbnails st) (fs st) (s3 st)
          (<[video := mkVideo (id v) (userID v) (Some url) (thumbnailURL v)]> (heap st))
          (EvPresign (Some key) 360 :: trace st)) /\
     (let* once := dbVideoToSignedVideo env cfg video in dbVideoToSignedVideo env cfg once) st =
       (Returned video,
        mkState (db st) (videoThumbnails st) (fs st) (s3 st)
          (<[video := mkVideo (id v) (userID v) (Some (s3_presign env (Some url) 360))
                        (thumbnailURL v)]> (heap st))
          (EvPresign (Some url) 360 :: EvPresign (Some key) 360 :: trace st))).
Proof.
  intros Hv. destruct st as [d t f s h tr]. cbn [heap] in Hv.
  assert (video < length h)%nat as Hlt by (by eapply lookup_lt_Some).
  unfold dbVideoToSignedVideo. split.
  - intros Hnone. norm. rewrite Hv. norm. rewrite Hnone. reflexivity.
  - intros key Hkey.
    repeat (progress (norm; rewrite ?Hv, ?Hkey, ?list_lookup_insert_eq by exact Hlt)).
    split; [reflexivity |].
    by rewrite list_insert_insert_eq.
Qed.

Lemma dbVideoToSignedVideo_in_place_witness :
  (dbVideoToSignedVideo Scenario.env_ok Fixture.cfg 0%nat
     (mkState ∅ ∅ ∅ ∅ [mkVideo "v1" "alice" (Some "landscape/v1.mp4") None] [])).1
  = Returned 0%nat /\
  (dbVideoToSignedVideo Scenario.env_ok Fixture.cfg 0%nat
     (mkState ∅ ∅ ∅ ∅ [mkVideo "v1" "alice" None None] [])).1
  = Thrown TypeError.
Proof.
  split.
  - destruct (dbVideoToSignedVideo_in_place Scenario.env_ok Fixture.cfg 0%nat
                (mkState ∅ ∅ ∅ ∅ [mkVideo "v1" "alice" (Some "landscape/v1.mp4") None] [])
                (mkVideo "v1" "alice" (Some "landscape/v1.mp4") None) eq_refl) as [_ Hsome].
    destruct (Hsome "landscape/v1.mp4" eq_refl) as [Honce _].
    by rewrite Honce.
  - destruct (dbVideoToSignedVideo_in_place Scenario.env_ok Fixture.cfg 0%nat
                (mkState ∅ ∅ ∅ ∅ [mkVideo "v1" "alice" None None] [])
                (mkVideo "v1" "alice" None None) eq_refl) as [Hnone _].
    by rewrite Hnone.
Defined.

(** ** Classification on binary64 numbers *)

Lemma scales_classified_spec (n : nat) :
  scales_classified n = true ->
  forall k, 1 <= k <= Z.of_nat n ->
    aspect_classification (JS.num (16 * k)) (JS.num (9 * k)) = "landscape" /\
    aspect_classification (JS.num (9 * k)) (JS.num (16 * k)) = "portrait" /\
    aspect_classification (JS.num k) (JS.num k) = "other".
Proof.
  induction n as [|n IH]; intros Hall k Hk; [lia |].
  cbn [scales_classified] in Hall.
  apply andb_prop in Hall as [Hall Hrest]. apply andb_prop in Hall as [Hall Hsquare].
  apply andb_prop in Hall as [Hland Hport].
  destruct (Z.eq_dec k (Z.of_nat (S n))) as [->|Hne].
  - by rewrite !String.eqb_eq in *.
  - apply IH; [exact Hrest | lia].
Qed.

(** X13: the classification does not depend on the scale of the frame in
    the range of real videos: for every [k] from 1 to 2500, a [16k x 9k]
    stream is "landscape", a [9k x 16k] stream is "portrait" and a square
    [k x k] stream is "other" (rounding in the division never moves the
    truncated ratio off 177 or 56). *)
Theorem classification_is_scale_invariant (k : Z) :
  1 <= k <= 2500 ->
  aspect_classification (JS.num (16 * k)) (JS.num (9 * k)) = "landscape" /\
  aspect_classification (JS.num (9 * k)) (JS.num (16 * k)) = "portrait" /\
  aspect_classification (JS.num k) (JS.num k) = "other".
Proof.
  intros Hk. apply (scales_classified_spec 2500); [vm_compute; reflexivity | lia].
Qed.

Lemma classification_is_scale_invariant_witness :
  aspect_classification (JS.num 1280) (JS.num 720) = "landscape".
Proof.
  apply (classification_is_scale_invariant 80). lia.
Defined.

(** A ratio that is NaN or infinite matches neither threshold. *)
Lemma degenerate_ratio_is_other (w h : float) :
  Prim2SF (PrimFloat.div w h) = S754_nan \/
  (exists s, Prim2SF (PrimFloat.div w h) = S754_infinity s) ->
  aspect_classification w h = "other".
Proof.
  intros Hq. unfold aspect_classification. cbv zeta.
  assert (Prim2SF (PrimFloat.mul (PrimFloat.div w h) (JS.num 100)) = S754_nan \/
          exists s, Prim2SF (PrimFloat.mul (PrimFloat.div w h) (JS.num 100)) = S754_infinity s)
    as Hm.
  { rewrite mul_spec.
    replace (Prim2SF (JS.num 100)) with (S754_finite false 7036874417766400 (-46))
      by (vm_compute; reflexivity).
    destruct Hq as [-> | [s ->]]; [by left | right; by eexists]. }
  assert (JS.Math_floor (PrimFloat.mul (PrimFloat.div w h) (JS.num 100))
          = PrimFloat.mul (PrimFloat.div w h) (JS.num 100)) as ->.
  { unfold JS.Math_floor. by destruct Hm as [-> | [s ->]]. }
  unfold JS.strict_eq. rewrite !eqb_spec.
  replace (Prim2SF (JS.Math_floor
             (PrimFloat.mul (PrimFloat.div (JS.num 16) (JS.num 9)) (JS.num 100))))
    with (Prim2SF (JS.num 177)) by (vm_compute; reflexivity).
  replace (Prim2SF (JS.Math_floor
             (PrimFloat.mul (PrimFloat.div (JS.num 9) (JS.num 16)) (JS.num 100))))
    with (Prim2SF (JS.num 56)) by (vm_compute; reflexivity).
  destruct Hm as [-> | [s ->]]; [reflexivity |].
  destruct s; vm_compute; reflexivity.
Qed.

(** X14: a first stream that lacks its width or its height, or whose
    height is zero, never makes the probe fail: the ratio is NaN or
    infinite and the classification is "other". *)
Theorem degenerate_stream_is_other (env : Env) (filePath : string) (st : State)
    (s : Stream) (rest : list Stream) :
  exited (run_process env (ffprobe_cmd filePath) (fs st)) = 0 ->
  stdout (run_process env (ffprobe_cmd filePath) (fs st))
    = Some (mkProbeDoc (Some (s :: rest))) ->
  width s = None \/ height s = None \/ height s = Some (JS.num 0) ->
  (getVideoAspectRatio env filePath st).1 = Returned "other".
Proof.
  intros Hexit Hout Hdeg.
  rewrite getVideoAspectRatio_run. cbn [fst].
  unfold probe_outcome. rewrite Hexit, Hout. cbn [negb Z.eqb streams].
  f_equal. apply degenerate_ratio_is_other. rewrite div_spec.
  destruct Hdeg as [-> | [-> | ->]]; cbn [JS.ToNumber].
  - left. reflexivity.
  - left. replace (Prim2SF nan) with S754_nan by reflexivity.
    by destruct (Prim2SF (JS.ToNumber (width s))).
  - replace (Prim2SF (JS.num 0)) with (S754_zero false) by (vm_compute; reflexivity).
    destruct (Prim2SF (JS.ToNumber (width s))) as [sw|sw| |sw mw ew];
      [by left | right; by eexists | by left | right; by eexists].
Qed.

Lemma degenerate_stream_is_other_witness :
  (Run.probe Run.probe_no_dims).1 = Returned "other".
Proof.
  apply (degenerate_stream_is_other _ _ _ (mkStream None None) []).
  - vm_compute. reflexivity.
  - vm_compute. reflexivity.
  - by left.
Defined.

(** ** Validation, case by case *)

(** X15: for a video upload with an identifier and a valid token the
    checks on the body come in a fixed order, each with its own error: the
    body decodes as form data (else the [TypeError] of [req.formData()]),
    then file present, then size, then declared type.  A file of exactly
    1 GiB passes the size check, one byte more does not; an oversized file
    is reported as too large whatever its type.  In every rejection only
    the console line has been written. *)
Theorem handlerUploadVideo_validation_order (env : Env) (cfg : ApiConfig) (req : BunRequest)
    (st : State) (videoId token user : string) :
  params_videoId req = Some videoId -> videoId <> "" ->
  authorization req = Some token -> jwt_subject env token (jwtSecret cfg) = Some user ->
  let logged :=
    mkState (db st) (videoThumbnails st) (fs st) (s3 st) (heap st)
      (EvConsoleLog ["uploading video"; videoId; "by user"; user] :: trace st) in
  (body_decodes req = false ->
   handlerUploadVideo env cfg req st = (Thrown TypeError, logged)) /\
  (body_decodes req = true ->
  ((forall f, formData_get (form req) "video" <> Some (FormFile f)) ->
   handlerUploadVideo env cfg req st = (Thrown (BadRequestError "Video file missing"), logged)) /\
  (forall f,
     formData_get (form req) "video" = Some (FormFile f) ->
     (GiB < size f ->
      handlerUploadVideo env cfg req st =
        (Thrown (BadRequestError "Video too large, max size: 1GB"), logged)) /\
     (size f <= GiB -> type f = "" ->
      handlerUploadVideo env cfg req st =
        (Thrown (BadRequestError "Missing Content-Type for video"), logged)) /\
     (size f <= GiB -> type f <> "" -> type f <> "video/mp4" ->
      handlerUploadVideo env cfg req st =
        (Thrown (BadRequestError "Invalid Content-Type for video, only MP4 is allowed"),
         logged)) /\
     (size f <= GiB -> type f = "video/mp4" ->
      validated_video env cfg req = Some (videoId, user, f)))).
Proof.
  intros Hid Hne Hauth Hjwt logged. subst logged.
  destruct st as [d t f0 s h tr]. cbn [db videoThumbnails fs s3 heap trace].
  apply String.eqb_neq in Hne.
  unfold handlerUploadVideo, validated_video, formData, JS.truthy.
  rewrite Hid, Hne, Hauth. cbn [negb]. norm. rewrite Hjwt. norm.
  split; intros Hdec; rewrite Hdec; norm; [reflexivity |].
  split.
  - intros Hmissing.
    destruct (formData_get (form req) "video") as [[f|str]|]; [| reflexivity | reflexivity].
    by destruct (Hmissing f).
  - intros f ->. rewrite !Z.gtb_ltb. repeat split.
    + intros Hsize. apply Z.ltb_lt in Hsize. by rewrite Hsize.
    + intros Hsize ->. apply Z.ltb_ge in Hsize. by rewrite Hsize.
    + intros Hsize Hempty Htype. apply Z.ltb_ge in Hsize.
      apply String.eqb_neq in Hempty, Htype. by rewrite Hsize, Hempty, Htype.
    + intros Hsize ->. apply Z.ltb_ge in Hsize. by rewrite Hsize.
Qed.

Lemma handlerUploadVideo_validation_order_witness :
  validated_video Scenario.env_ok Fixture.cfg
    (Fixture.upload "v1" "tok-alice" "video" (mkFile GiB "video/mp4" []))
  = Some ("v1", "alice", mkFile GiB "video/mp4" []).
Proof.
  pose proof (handlerUploadVideo_validation_order Scenario.env_ok Fixture.cfg
                (Fixture.upload "v1" "tok-alice" "video" (mkFile GiB "video/mp4" []))
                (Fixture.st "v1") "v1" "tok-alice" "alice"
                eq_refl ltac:(discriminate) eq_refl eq_refl) as [_ Hdecoded].
  destruct (Hdecoded eq_refl) as [_ Hfile].
  destruct (Hfile (mkFile GiB "video/mp4" []) eq_refl) as (_ & _ & _ & Hvalid).
  apply Hvalid; [cbn; lia | reflexivity].
Defined.

(** X16: the same for a thumbnail upload (identifier, valid token): the
    body decodes, then file present, size and declared type, with the
    ceiling at 10 MiB (inclusive) and the two image types. *)
Theorem handlerUploadThumbnail_validation_order (env : Env) (cfg : ApiConfig)
    (req : BunRequest) (st : State) (videoId token user : string) :
  params_videoId req = Some videoId -> videoId <> "" ->
  authorization req = Some token -> jwt_subject env token (jwtSecret cfg) = Some user ->
  let logged :=
    mkState (db st) (videoThumbnails st) (fs st) (s3 st) (heap st)
      (EvConsoleLog ["uploading thumbnail for video"; videoId; "by user"; user] :: trace st) in
  (body_decodes req = false ->
   handlerUploadThumbnail env cfg req st = (Thrown TypeError, logged)) /\
  (body_decodes req = true ->
  ((forall f, formData_get (form req) "thumbnail" <> Some (FormFile f)) ->
   handlerUploadThumbnail env cfg req st =
     (Thrown (BadRequestError "Thumbnail file missing"), logged)) /\
  (forall f,
     formData_get (form req) "thumbnail" = Some (FormFile f) ->
     (10 * MiB < size f ->
      handlerUploadThumbnail env cfg req st =
        (Thrown (BadRequestError "Thumbnail too large, max size: 10MB"), logged)) /\
     (size f <= 10 * MiB -> type f = "" ->
      handlerUploadThumbnail env cfg req st =
        (Thrown (BadRequestError "Missing Content-Type for thumbnail"), logged)) /\
     (size f <= 10 * MiB -> type f <> "" -> type f <> "image/jpeg" -> type f <> "image/png" ->
      handlerUploadThumbnail env cfg req st =
        (Thrown (BadRequestError "Invalid Content-Type for thumbnail"), logged)) /\
     (size f <= 10 * MiB -> type f = "image/jpeg" \/ type f = "image/png" ->
      validated_thumbnail env cfg req = Some (videoId, user, f)))).
Proof.
  intros Hid Hne Hauth Hjwt logged. subst logged.
  destruct st as [d t f0 s h tr]. cbn [db videoThumbnails fs s3 heap trace].
  apply String.eqb_neq in Hne.
  unfold handlerUploadThumbnail, validated_thumbnail, formData, JS.truthy.
  rewrite Hid, Hne, Hauth. cbn [negb]. norm. rewrite Hjwt. norm.
  split; intros Hdec; rewrite Hdec; norm; [reflexivity |].
  split.
  - intros Hmissing.
    destruct (formData_get (form req) "thumbnail") as [[f|str]|]; [| reflexivity | reflexivity].
    by destruct (Hmissing f).
  - intros f ->. rewrite !Z.gtb_ltb. repeat split.
    + intros Hsize. apply Z.ltb_lt in Hsize. by rewrite Hsize.
    + intros Hsize ->. apply Z.ltb_ge in Hsize. by rewrite Hsize.
    + intros Hsize Hempty Hjpeg Hpng. apply Z.ltb_ge in Hsize.
      apply String.eqb_neq in Hempty, Hjpeg, Hpng. by rewrite Hsize, Hempty, Hjpeg, Hpng.
    + intros Hsize [-> | ->]; apply Z.ltb_ge in Hsize; by rewrite Hsize.
Qed.

Lemma handlerUploadThumbnail_validation_order_witness :
  (handlerUploadThumbnail Scenario.env_ok Fixture.cfg
     (Fixture.upload "v1" "tok-alice" "thumbnail" (mkFile (10 * MiB + 1) "text/html" []))
     (Fixture.st "v1")).1
  = Thrown (BadRequestError "Thumbnail too large, max size: 10MB").
Proof.
  pose proof (handlerUploadThumbnail_validation_order Scenario.env_ok Fixture.cfg
                (Fixture.upload "v1" "tok-alice" "thumbnail"
                   (mkFile (10 * MiB + 1) "text/html" []))
                (Fixture.st "v1") "v1" "tok-alice" "alice"
                eq_refl ltac:(discriminate) eq_refl eq_refl) as [_ Hdecoded].
  destruct (Hdecoded eq_refl) as [_ Hfile].
  destruct (Hfile (mkFile (10 * MiB + 1) "text/html" []) eq_refl) as (Hlarge & _).
  rewrite Hlarge; [reflexivity | cbn; lia].
Defined.

(** ** Responses *)

(** X17: an upload that succeeds answers with status 200 and with the
    record exactly as it is then stored under its identifier; for a video
    upload that is the record with the signed URL as video location, for a
    thumbnail upload the record with the new thumbnail URL. *)
Theorem response_is_stored_record (env : Env) (cfg : ApiConfig) (req : BunRequest)
    (st : State) (resp : Response) (st' : State) :
  handlerUploadVideo env cfg req st = (Returned resp, st') \/
  handlerUploadThumbnail env cfg req st = (Returned resp, st') ->
  exists v, resp = JSONResponse 200 v /\ db st' !! id v = Some v.
Proof.
  intros [H|H].
  - destruct (handlerUploadVideo_returned _ _ _ _ _ _ H)
      as (videoId & f & row & c & body & _ & _ & _ & _ & _ & -> & ->).
    eexists. split; [reflexivity |]. cbn [db id]. apply lookup_insert_eq.
  - destruct (handlerUploadThumbnail_returned _ _ _ _ _ _ H)
      as (videoId & f & row & ext & _ & _ & _ & _ & -> & _ & Hdb & _).
    eexists. split; [reflexivity |]. rewrite Hdb. cbn [id]. apply lookup_insert_eq.
Qed.

Lemma response_is_stored_record_witness :
  exists v, Run.thumbnail_ok.1 = Returned (JSONResponse 200 v) /\
            db Run.thumbnail_ok.2 !! id v = Some v.
Proof.
  assert (exists resp st', Run.thumbnail_ok = (Returned resp, st')) as (resp & st' & Hrun)
    by (eexists _, _; vm_compute; reflexivity).
  destruct (response_is_stored_record _ _ _ _ resp st' (or_intror Hrun)) as (v & -> & Hdb).
  exists v. rewrite Hrun. split; [reflexivity | exact Hdb].
Defined.

(** ** The scratch path *)

Lemma append_nil_r (s : string) : s +:+ "" = s.
Proof.
  induction s as [|c s IH]; [reflexivity |].
  change (String c (s +:+ "") = String c s). by rewrite IH.
Qed.

Lemma append_assoc (s t u : string) : (s +:+ t) +:+ u = s +:+ t +:+ u.
Proof.
  induction s as [|c s IH]; [reflexivity |].
  change (String c ((s +:+ t) +:+ u) = String c (s +:+ t +:+ u)). by rewrite IH.
Qed.

Lemma split_go_plain (s cur : string) :
  forallb (fun c => negb (Ascii.eqb c "/")) (list_ascii_of_string s) = true ->
  JS.split_go "/" s cur = [cur +:+ s].
Proof.
  revert cur. induction s as [|c s IH]; intros cur Hplain; cbn [JS.split_go].
  - by rewrite append_nil_r.
  - cbn [list_ascii_of_string forallb] in Hplain.
    apply andb_prop in Hplain as [Hc Hs].
    destruct (Ascii.eqb c "/"); [discriminate Hc |].
    rewrite IH by exact Hs. by rewrite append_assoc.
Qed.

Lemma length_append (s t : string) :
  String.length (s +:+ t) = (String.length s + String.length t)%nat.
Proof.
  induction s as [|c s IH]; [reflexivity |].
  change (S (String.length (s +:+ t)) = S (String.length s + String.length t)).
  by rewrite IH.
Qed.

Lemma append_cancel_r (a b t : string) : a +:+ t = b +:+ t -> a = b.
Proof.
  revert b. induction a as [|c a IH]; intros [|c' b] H.
  - reflexivity.
  - apply (f_equal String.length) in H. rewrite !length_append in H.
    change (String.length (String c' b)) with (S (String.length b)) in H.
    change (String.length "") with 0%nat in H. lia.
  - apply (f_equal String.length) in H. rewrite !length_append in H.
    change (String.length (String c a)) with (S (String.length a)) in H.
    change (String.length "") with 0%nat in H. lia.
  - change (String c (a +:+ t) = String c' (b +:+ t)) in H.
    injection H as -> H. f_equal. by apply IH.
Qed.

(** An identifier without a separator. *)
Lemma scratch_path_plain (videoId : string) :
  forallb (fun c => negb (Ascii.eqb c "/")) (list_ascii_of_string videoId) = true ->
  scratch_path videoId = "/tmp/" +:+ videoId +:+ ".mp4".
Proof.
  intros Hplain. unfold scratch_path.
  assert (forallb (fun c => negb (Ascii.eqb c "/")) (list_ascii_of_string (videoId +:+ ".mp4"))
          = true) as Hname.
  { clear -Hplain. induction videoId as [|c s IH]; [reflexivity |].
    change (String c s +:+ ".mp4") with (String c (s +:+ ".mp4")).
    cbn [list_ascii_of_string forallb] in *.
    apply andb_prop in Hplain as [Hc Hs]. by rewrite Hc, (IH Hs). }
  assert (String.eqb (videoId +:+ ".mp4") "" = false
          /\ String.eqb (videoId +:+ ".mp4") "." = false
          /\ String.eqb (videoId +:+ ".mp4") ".." = false) as (Hne & Hdot & Hdots).
  { assert (forall x, (String.length x < 4)%nat -> String.eqb (videoId +:+ ".mp4") x = false)
      as Hshort.
    { intros x Hx. destruct (String.eqb_spec (videoId +:+ ".mp4") x) as [E|]; [| reflexivity].
      apply (f_equal String.length) in E. rewrite length_append in E.
      change (String.length ".mp4") with 4%nat in E. lia. }
    repeat split; apply Hshort; vm_compute; lia. }
  remember (videoId +:+ ".mp4") as name eqn:Hn. clear Hn Hplain.
  unfold JS.path_join, JS.path_normalize, JS.ends_with_slash, JS.split.
  rewrite Hne.
  change (JS.split_go "/" ("/tmp" +:+ "/" +:+ name) "")
    with ("" :: "tmp" :: JS.split_go "/" name "").
  change (String.prefix "/" ("/tmp" +:+ "/" +:+ name)) with true.
  change ("/tmp" +:+ "/" +:+ name =? "")%string with false.
  rewrite split_go_plain by exact Hname.
  change ("" +:+ name) with name.
  cbn [last negb JS.normalize_segments String.eqb Ascii.eqb Bool.eqb orb andb].
  rewrite Hne, Hdot, Hdots.
  cbn [orb andb rev rev_append app List.rev String.concat].
  reflexivity.
Qed.

(** X18: for a video identifier without a path separator the scratch file
    is [/tmp/<videoId>.mp4] and the remuxed file [/tmp/<videoId>.mp4.processed];
    two such identifiers share a scratch file, or a remuxed file, only when
    they are equal, so uploads for different videos never work on each
    other's files. *)
Theorem scratch_path_of_plain_identifier (a b : string) :
  forallb (fun c => negb (Ascii.eqb c "/")) (list_ascii_of_string a) = true ->
  forallb (fun c => negb (Ascii.eqb c "/")) (list_ascii_of_string b) = true ->
  scratch_path a = "/tmp/" +:+ a +:+ ".mp4" /\
  processed_path a = "/tmp/" +:+ a +:+ ".mp4.processed" /\
  (scratch_path a = scratch_path b -> a = b) /\
  (processed_path a = processed_path b -> a = b).
Proof.
  intros Ha Hb. unfold processed_path.
  rewrite (scratch_path_plain a Ha), (scratch_path_plain b Hb).
  assert (forall x y, "/tmp/" +:+ x +:+ ".mp4" = "/tmp/" +:+ y +:+ ".mp4" -> x = y) as Hinj.
  { intros x y H. apply (inj (String.append "/tmp/")) in H. by apply append_cancel_r in H. }
  split; [reflexivity |]. split; [| split; [exact (Hinj a b) |]].
  - change (("/tmp/" +:+ a +:+ ".mp4") +:+ ".processed")
      with ("/tmp/" +:+ ((a +:+ ".mp4") +:+ ".processed")).
    by rewrite append_assoc.
  - intros H. apply append_cancel_r in H. by apply Hinj.
Qed.

Lemma scratch_path_of_plain_identifier_witness :
  scratch_path "v1" = "/tmp/v1.mp4" /\ processed_path "v1" = "/tmp/v1.mp4.processed".
Proof.
  destruct (scratch_path_of_plain_identifier "v1" "v1" eq_refl eq_refl) as (Hs & Hp & _).
  split; [exact Hs | exact Hp].
Defined.
